(** * goclockdiff: the ICMP Timestamp exchange of [goclockdiff.go]

    A shallow embedding of the wire codec ([Timestamp.Marshal],
    [ParseTimestamp]), of the clock sampling and the RTT / clock-delta
    arithmetic of [doPing], and of the send / receive / validate cycle of
    [doPing], followed by the properties of the specification.

    Go's [int] and [int64] are 64-bit two's-complement integers, [uint32] a
    32-bit unsigned integer and [byte] an 8-bit unsigned integer; they are
    embedded in [Z] with the wrap-around written out.  A [[]byte] is a
    [list byte]. *)

From Stdlib Require Import ZArith Lia List Bool.
From Stdlib Require Strings.String.
From Stdlib Require Import Floats.SpecFloat.
From coqutil Require Import Byte.
Import ListNotations.
Local Open Scope Z_scope.
Import Stdlib.Strings.String.StringSyntax.
Delimit Scope string_scope with string.

(** ** Machine integers *)

(** [uint32(x)]: the low 32 bits. *)
Definition uint32 (x : Z) : Z := x mod 2 ^ 32.

(** [int64(x)] (and [int(x)], [int] being 64 bits wide): two's complement. *)
Definition int64 (x : Z) : Z := (x + 2 ^ 63) mod 2 ^ 64 - 2 ^ 63.

Definition is_uint16 (x : Z) : Prop := 0 <= x <= 2 ^ 16 - 1.
Definition is_uint32 (x : Z) : Prop := 0 <= x <= 2 ^ 32 - 1.
Definition is_int64 (x : Z) : Prop := - 2 ^ 63 <= x <= 2 ^ 63 - 1.

(** ** The Timestamp body and the messages around it *)

(** [type Timestamp struct]: [ID] and [Seq] are Go [int]s, the three
    timestamps are [uint32]s. *)
Record Timestamp := mkTimestamp {
  ID : Z;
  Seq : Z;
  OriginTimestamp : Z;
  ReceiveTimestamp : Z;
  TransmitTimestamp : Z
}.

Definition marshalledTimestampLen : nat := 16.

(** A pointer to a Timestamp may be [nil]: [None]. *)
Definition Len (t : option Timestamp) (proto : Z) : nat :=
  match t with
  | None => 0%nat
  | Some _ => marshalledTimestampLen
  end.

(** [net.Addr] as [getAddr] builds it. *)
Inductive Addr :=
| UDPAddr (ip : list byte)
| IPAddr (ip : list byte).

(** The body of an [icmp.Message]: the Timestamp that [doPing] sends, or
    the bytes following the four-byte ICMP header that [icmp.ParseMessage]
    keeps for a received message. *)
Inductive MessageBody :=
| BodyTimestamp (t : Timestamp)
| BodyRaw (data : list byte).

(** [icmp.Type]: an interface value, holding an [ipv4.ICMPType] or an
    [ipv6.ICMPType]; two such values are equal when both the dynamic type
    and the number agree. *)
Inductive ICMPType :=
| ICMPv4 (t : Z)
| ICMPv6 (t : Z).

Definition ICMPType_eqb (a b : ICMPType) : bool :=
  match a, b with
  | ICMPv4 x, ICMPv4 y => Z.eqb x y
  | ICMPv6 x, ICMPv6 y => Z.eqb x y
  | _, _ => false
  end.

(** [ipv4.ICMPTypeTimestamp], [ipv4.ICMPTypeTimestampReply],
    [ipv4.ICMPTypeEchoReply]; [iana.ProtocolICMP], [iana.ProtocolIPv6ICMP]. *)
Definition ICMPTypeTimestamp : ICMPType := ICMPv4 13.
Definition ICMPTypeTimestampReply : ICMPType := ICMPv4 14.
Definition ICMPTypeEchoReply : ICMPType := ICMPv4 0.
Definition ProtocolICMP : Z := 1.
Definition ProtocolIPv6ICMP : Z := 58.

(** [icmp.Message]. *)
Record Message := mkMessage {
  Type_ : ICMPType;
  Code : Z;
  Checksum : Z;
  Body : MessageBody
}.

(** The error values of the program.  [ErrBodyLength] is the error of
    [ParseTimestamp]; [ErrShortWrite] and [ErrUnexpectedReply] are the two
    [fmt.Errorf] results that [doPing] returns; [ErrNoAddress] and
    [ErrAddrKind] are those of [getAddr]; [ErrLib] stands for an error
    handed over by the network library or the operating system. *)
Inductive error :=
| ErrBodyLength (bodyLen : nat)
| ErrShortWrite (n want : Z)
| ErrUnexpectedReply (rm : Message) (peer : Addr)
| ErrNoAddress
| ErrAddrKind
| ErrLib (code : nat).

(** [errMessageTooShort] and [errInvalidProtocol] of the icmp package. *)
Definition errMessageTooShort : error := ErrLib 1.
Definition errInvalidProtocol : error := ErrLib 2.

(** ** WireCodec *)

(** [b[i]] on a slice whose length has been checked. *)
Definition at_ (b : list byte) (i : nat) : Z :=
  byte.unsigned (nth i b Byte.x00).

(** The closure [unparseInt] of [Marshal]. *)
Definition unparseInt (i : Z) : list byte :=
  [ byte.of_Z (Z.shiftr i 24); byte.of_Z (Z.shiftr i 16);
    byte.of_Z (Z.shiftr i 8); byte.of_Z i ].

(** The method [Marshal] of a Timestamp: its result slice and error. *)
Definition Marshal (t : Timestamp) (proto : Z) : list byte * option error :=
  ( [ byte.of_Z (Z.shiftr (ID t) 8); byte.of_Z (ID t);
      byte.of_Z (Z.shiftr (Seq t) 8); byte.of_Z (Seq t) ]
    ++ unparseInt (OriginTimestamp t)
    ++ unparseInt (ReceiveTimestamp t)
    ++ unparseInt (TransmitTimestamp t),
    None ).

(** The closure [parseInt] of [ParseTimestamp]; each shift is a [uint32]
    shift. *)
Definition parseInt (b : list byte) (start : nat) : Z :=
  Z.lor (Z.lor (Z.lor (uint32 (Z.shiftl (at_ b start) 24))
                      (uint32 (Z.shiftl (at_ b (start + 1)) 16)))
               (uint32 (Z.shiftl (at_ b (start + 2)) 8)))
        (at_ b (start + 3)).

(** [ParseTimestamp]: the pair [(p, err)] it returns, with [p = nil]
    exactly when [err != nil]. *)
Definition ParseTimestamp (b : list byte) : option Timestamp * option error :=
  let bodyLen := length b in
  if negb (Nat.eqb bodyLen marshalledTimestampLen) then
    (None, Some (ErrBodyLength bodyLen))
  else
    (Some {| ID := Z.lor (int64 (Z.shiftl (at_ b 0) 8)) (at_ b 1);
             Seq := Z.lor (int64 (Z.shiftl (at_ b 2) 8)) (at_ b 3);
             OriginTimestamp := parseInt b 4;
             ReceiveTimestamp := parseInt b 8;
             TransmitTimestamp := parseInt b 12 |},
     None).

(** ** float64 and [math.Abs]

    [doPing] takes the absolute value through [float64].  A [float64] is an
    IEEE 754 binary64 number: [spec_float] at precision 53 and [emax] 1024.
    Converting an integer rounds to the nearest representable value, ties
    to even, which is what [binary_normalize] does. *)

Definition float64 := spec_float.

(** [float64(x)] for an integer [x]. *)
Definition float64_of_int (x : Z) : float64 := binary_normalize 53 1024 x 0 false.

(** [math.Abs]. *)
Definition math_Abs (f : float64) : float64 := SFabs f.

(** The integer part of a finite [float64], rounded toward zero. *)
Definition float64_trunc (f : float64) : option Z :=
  match f with
  | S754_zero _ => Some 0
  | S754_finite s m e =>
      let a := if 0 <=? e then Z.pos m * 2 ^ e else Z.pos m / 2 ^ (- e) in
      Some (if s then - a else a)
  | S754_infinity _ | S754_nan => None
  end.

(** [int64(f)] for a [float64]: the fraction is discarded; when the value
    does not fit an [int64] the conversion still succeeds with a value that
    depends on the implementation, taken here from [impl]. *)
Definition int64_of_float64 (impl : float64 -> Z) (f : float64) : Z :=
  match float64_trunc f with
  | Some v => if (- 2 ^ 63 <=? v) && (v <=? 2 ^ 63 - 1) then v else impl f
  | None => impl f
  end.

(** ** ClockSampler: the two local samples of [doPing] *)

(** [24*time.Hour] and the divisor of [UnixNano()/1000000]. *)
Definition day_ns : Z := 24 * 3600 * 1000000000.
Definition ns_per_ms : Z := 1000000.

(** [now.Truncate(24*time.Hour).UnixNano()], from [now.UnixNano()]:
    [Truncate] rounds down to a multiple of 24 hours since the zero time,
    which lies a whole number of days before the Unix epoch. *)
Definition Truncate_day_UnixNano (now_ns : Z) : Z :=
  int64 (now_ns - now_ns mod day_ns).

(** [today := now.Truncate(24*time.Hour).UnixNano() / 1000000]; Go's [/]
    truncates toward zero. *)
Definition today (now_ns : Z) : Z := Z.quot (Truncate_day_UnixNano now_ns) ns_per_ms.

(** [transmitTime := uint32(now.UnixNano()/1000000 - today)]. *)
Definition transmitTime (now_ns : Z) : Z :=
  uint32 (int64 (Z.quot now_ns ns_per_ms - today now_ns)).

(** [receivedTime := time.Now().UnixNano()/1000000 - today], an [int64];
    [today] is the variable computed from [now] before the request was
    sent, [recv_ns] the reading of the clock after the reply was read. *)
Definition receivedTime (now_ns recv_ns : Z) : Z :=
  int64 (Z.quot recv_ns ns_per_ms - today now_ns).

(** ** DeltaCalculator: the arithmetic of the Timestamp Reply branch *)

(** [rtt := int64(math.Abs(float64(remoteReceiveTime - int64(transmitTime)
    + receivedTime - int64(ts.TransmitTimestamp))))], with
    [remoteReceiveTime := int64(ts.ReceiveTimestamp)].  [T1] is
    [transmitTime], [T2] the reply's receive timestamp, [T3] its transmit
    timestamp and [T4] is [receivedTime]. *)
Definition compute_rtt (impl : float64 -> Z) (T1 T2 T3 T4 : Z) : Z :=
  let remoteReceiveTime := int64 T2 in
  int64_of_float64 impl
    (math_Abs (float64_of_int
       (int64 (int64 (int64 (remoteReceiveTime - int64 T1) + T4) - int64 T3)))).

(** [delta := rtt/2 + int64(transmitTime) - remoteReceiveTime]. *)
Definition compute_delta (rtt T1 T2 : Z) : Z :=
  let remoteReceiveTime := int64 T2 in
  int64 (int64 (Z.quot rtt 2 + int64 T1) - remoteReceiveTime).

(** ** The icmp package: [Message.Marshal] and [ParseMessage]

    Both belong to golang.org/x/net/icmp, which the program imports; they
    are embedded here as far as [doPing] depends on them.  An ICMP message
    on the wire is the four-byte header (type, code, two checksum bytes)
    followed by the body. *)

(** Results of the calls into the library and the operating system. *)
Inductive res (A : Type) :=
| Ok (a : A)
| Err (e : error).
Arguments Ok {A} a.
Arguments Err {A} e.

(** [m.Body.Len(proto)] and [m.Body.Marshal(proto)] on the two kinds of
    body. *)
Definition Body_Len (b : MessageBody) (proto : Z) : nat :=
  match b with
  | BodyTimestamp t => Len (Some t) proto
  | BodyRaw data => length data
  end.

Definition Body_Marshal (b : MessageBody) (proto : Z) : list byte * option error :=
  match b with
  | BodyTimestamp t => Marshal t proto
  | BodyRaw data => (data, None)
  end.

(** The sum of the 16-bit words of [b], low byte first, in a [uint32]. *)
Fixpoint checksum_loop (b : list byte) (s : Z) : Z :=
  match b with
  | b0 :: b1 :: rest =>
      checksum_loop rest
        (uint32 (s + Z.lor (uint32 (Z.shiftl (byte.unsigned b1) 8)) (byte.unsigned b0)))
  | [b0] => uint32 (s + byte.unsigned b0)
  | [] => s
  end.

(** [checksum(b)]: the Internet checksum, a [uint16]. *)
Definition checksum (b : list byte) : Z :=
  let s := checksum_loop b 0 in
  let s := uint32 (Z.shiftr s 16 + Z.land s 65535) in
  let s := uint32 (s + Z.shiftr s 16) in
  Z.lxor (s mod 2 ^ 16) 65535.

(** [b[i] ^= v]. *)
Fixpoint xor_at (i : nat) (v : byte) (b : list byte) : list byte :=
  match b, i with
  | [], _ => []
  | x :: rest, O => byte.xor x v :: rest
  | x :: rest, S j => x :: xor_at j v rest
  end.

Definition ICMPType_protocol (t : ICMPType) : Z :=
  match t with
  | ICMPv4 _ => ProtocolICMP
  | ICMPv6 _ => ProtocolIPv6ICMP
  end.

Definition ICMPType_number (t : ICMPType) : Z :=
  match t with
  | ICMPv4 n => n
  | ICMPv6 n => n
  end.

(** [m.Marshal(nil)]: header, then the body when it is not empty, then the
    checksum for ICMPv4 (for ICMPv6 without a pseudo header the checksum is
    left to the kernel). *)
Definition Message_Marshal (m : Message) : list byte * option error :=
  let proto := ICMPType_protocol (Type_ m) in
  let b := [ byte.of_Z (ICMPType_number (Type_ m)); byte.of_Z (Code m);
             Byte.x00; Byte.x00 ] in
  let '(mb, err) :=
    if negb (Nat.eqb (Body_Len (Body m) proto) 0)
    then Body_Marshal (Body m) proto
    else ([], None) in
  match err with
  | Some e => ([], Some e)
  | None =>
      let b := b ++ mb in
      if Z.eqb proto ProtocolIPv6ICMP then (b, None)
      else
        let s := checksum b in
        (xor_at 3 (byte.of_Z (Z.shiftr s 8)) (xor_at 2 (byte.of_Z s) b), None)
  end.

(** The message types for which the library registers a body parser of its
    own (destination unreachable, time exceeded, parameter problem, echo,
    echo reply, extended echo and their ICMPv6 counterparts).  Timestamp
    and Timestamp Reply are not among them: their body is kept raw. *)
Definition parseFns (t : ICMPType) : bool :=
  match t with
  | ICMPv4 n => existsb (Z.eqb n) [3; 11; 12; 8; 0; 42; 43]
  | ICMPv6 n => existsb (Z.eqb n) [1; 2; 3; 4; 128; 129; 160; 161]
  end.

(** [icmp.ParseMessage(proto, b)].  [parse_registered] stands for the
    registered body parsers, whose results [doPing] only passes on. *)
Definition ParseMessage (parse_registered : ICMPType -> list byte -> res MessageBody)
    (proto : Z) (b : list byte) : res Message :=
  if (length b <? 4)%nat then Err errMessageTooShort
  else
    let code := at_ b 1 in
    let cksum := Z.lor (Z.shiftl (at_ b 2) 8) (at_ b 3) in
    let mk (t : ICMPType) :=
      let body :=
        if parseFns t then parse_registered t (skipn 4 b)
        else Ok (BodyRaw (skipn 4 b)) in
      match body with
      | Ok bd => Ok {| Type_ := t; Code := code; Checksum := cksum; Body := bd |}
      | Err e => Err e
      end in
    if Z.eqb proto ProtocolICMP then mk (ICMPv4 (at_ b 0))
    else if Z.eqb proto ProtocolIPv6ICMP then mk (ICMPv6 (at_ b 0))
    else Err errInvalidProtocol.

(** ** ProtocolExchange: [getAddr] and [doPing] *)

(** What [doPing] gets from outside during one run: the results of the
    socket, resolver, process and clock calls, in the order of the calls. *)
Inductive LocalAddrKind := LocalUDP | LocalIP | LocalOther.

Record World := mkWorld {
  (** [icmp.ListenPacket(network, address)] *)
  ListenPacket : String.string -> String.string -> option error;
  (** the dynamic type of [c.LocalAddr()] *)
  LocalAddr : LocalAddrKind;
  (** [net.LookupIP(host)] *)
  LookupIP : String.string -> res (list (list byte));
  (** [os.Getpid()] *)
  Getpid : Z;
  (** [now.UnixNano()] for [now := time.Now()] taken before sending *)
  now_UnixNano : Z;
  (** [c.WriteTo(wb, dst)] *)
  WriteTo : list byte -> Addr -> res Z;
  (** [c.SetReadDeadline(...)] *)
  SetReadDeadline : option error;
  (** [c.ReadFrom(rb)]: the datagram and the peer, or the error (a timeout
      among others) *)
  ReadFrom : res (list byte * Addr);
  (** [time.Now().UnixNano()] taken after the read *)
  recv_UnixNano : Z;
  (** the registered body parsers of the icmp package *)
  parse_registered : ICMPType -> list byte -> res MessageBody;
  (** the value of an out-of-range float64 to int64 conversion *)
  float_impl : float64 -> Z
}.

(** [ip.To4() != nil]: a 4-byte address, or a 16-byte one carrying an
    IPv4 address behind the prefix of ten zero bytes and two 0xff bytes. *)
Definition To4_nonnil (ip : list byte) : bool :=
  (Nat.eqb (length ip) 4)
  || ((Nat.eqb (length ip) 16)
      && forallb (fun x => Z.eqb (byte.unsigned x) 0) (firstn 10 ip)
      && Z.eqb (at_ ip 10) 255 && Z.eqb (at_ ip 11) 255).

(** The closure [netaddr] of [getAddr]. *)
Definition netaddr (w : World) (ip : list byte) : res Addr :=
  match LocalAddr w with
  | LocalUDP => Ok (UDPAddr ip)
  | LocalIP => Ok (IPAddr ip)
  | LocalOther => Err ErrAddrKind
  end.

(** [getAddr(host, c, protocol)]. *)
Definition getAddr (w : World) (host : String.string) (protocol : Z) : res Addr :=
  match LookupIP w host with
  | Err e => Err e
  | Ok ips =>
      match find To4_nonnil ips with
      | Some ip => netaddr w ip
      | None => Err ErrNoAddress
      end
  end.

(** [type Ping struct]. *)
Record Ping := mkPing {
  network : String.string;
  address : String.string;
  protocol : Z;
  mtype : ICMPType
}.

(** The [Ping] value that [main] passes to [doPing], with [seq = 0]. *)
Definition main_Ping : Ping :=
  {| network := "ip4:icmp"%string; address := "0.0.0.0"%string;
     protocol := ProtocolICMP; mtype := ICMPTypeTimestamp |}.

(** [1 << uint(seq)] on an [int]: a shift count of 64 or more gives 0. *)
Definition shl1 (seq : Z) : Z :=
  let n := seq mod 2 ^ 64 in
  if n <? 64 then int64 (Z.shiftl 1 n) else 0.

(** The message [wm] that [doPing] builds; the fields of the body that
    the composite literal leaves out are zero. *)
Definition request (w : World) (tt : Ping) (seq : Z) : Message :=
  {| Type_ := mtype tt;
     Code := 0;
     Checksum := 0;
     Body := BodyTimestamp
       {| ID := Z.land (Getpid w) 65535;
          Seq := shl1 seq;
          OriginTimestamp := transmitTime (now_UnixNano w);
          ReceiveTimestamp := 0;
          TransmitTimestamp := 0 |} |}.

(** The three lines written to standard output on success. *)
Record Report := mkReport {
  Originate : Z;
  Receive : Z;
  Transmit : Z;
  tsrtt : Z;
  delta : Z
}.

(** How a run of [doPing] ends: it returns an error value ([None] is
    [nil]), or it panics. *)
Inductive Result :=
| Returned (err : option error)
| Panicked.

(** The [switch rm.Type] statement at the end of [doPing]. *)
Definition doPing_reply (impl : float64 -> Z) (T1 T4 : Z) (rm : Message) (peer : Addr)
  : option Report * Result :=
  if ICMPType_eqb (Type_ rm) ICMPTypeTimestampReply then
    let '(b, _) := Body_Marshal (Body rm) ProtocolICMP in
    let '(ts, err) := ParseTimestamp b in
    (* when [err != nil] an error value is formatted and dropped; the
       function goes on *)
    match ts with
    | None => (None, Panicked) (* [ts.ReceiveTimestamp] with [ts == nil] *)
    | Some ts =>
        let rtt := compute_rtt impl T1 (ReceiveTimestamp ts) (TransmitTimestamp ts) T4 in
        let delta := compute_delta rtt T1 (ReceiveTimestamp ts) in
        (Some {| Originate := OriginTimestamp ts;
                 Receive := ReceiveTimestamp ts;
                 Transmit := TransmitTimestamp ts;
                 tsrtt := rtt;
                 delta := delta |},
         Returned None)
    end
  else (None, Returned (Some (ErrUnexpectedReply rm peer))).

(** What one run of [doPing] does: the bytes handed to [WriteTo] with
    their destination, the report printed, and how the run ends. *)
Record Run := mkRun {
  sent : option (list byte * Addr);
  printed : option Report;
  result : Result
}.

Definition fail (sent : option (list byte * Addr)) (e : error) : Run :=
  {| sent := sent; printed := None; result := Returned (Some e) |}.

(** [doPing] up to the [switch]: opening the socket, resolving, sampling
    the clock, sending, waiting and parsing.  It yields what was handed to
    [WriteTo], and either the error that [doPing] returns or the values
    [transmitTime], [receivedTime], [rm] and [peer] that reach the
    [switch]. *)
Definition doPing_exchange (w : World) (host : String.string) (tt : Ping) (seq : Z)
  : option (list byte * Addr) * res (Z * Z * Message * Addr) :=
  match ListenPacket w (network tt) (address tt) with
  | Some e => (None, Err e)
  | None =>
  match getAddr w host (protocol tt) with
  | Err e => (None, Err e)
  | Ok dst =>
  let T1 := transmitTime (now_UnixNano w) in
  let wm := request w tt seq in
  match Message_Marshal wm with
  | (_, Some e) => (None, Err e)
  | (wb, None) =>
  let out := Some (wb, dst) in
  match WriteTo w wb dst with
  | Err e => (out, Err e)
  | Ok n =>
  if negb (Z.eqb n (Z.of_nat (length wb))) then
    (out, Err (ErrShortWrite n (Z.of_nat (length wb))))
  else
  match SetReadDeadline w with
  | Some e => (out, Err e)
  | None =>
  match ReadFrom w with
  | Err e => (out, Err e)
  | Ok (dgram, peer) =>
  let T4 := receivedTime (now_UnixNano w) (recv_UnixNano w) in
  match ParseMessage (parse_registered w) (protocol tt) (firstn 1500 dgram) with
  | Err e => (out, Err e)
  | Ok rm => (out, Ok (T1, T4, rm, peer))
  end end end end end end end.

(** [doPing(host, tt, seq)]. *)
Definition doPing (w : World) (host : String.string) (tt : Ping) (seq : Z) : Run :=
  match doPing_exchange w host tt seq with
  | (out, Err e) => fail out e
  | (out, Ok (T1, T4, rm, peer)) =>
      let '(rep, r) := doPing_reply (float_impl w) T1 T4 rm peer in
      {| sent := out; printed := rep; result := r |}
  end.

(** ** Sample runs

    A world in which every call succeeds and [dgram] is what [ReadFrom]
    delivers from 198.51.100.7, the request having gone to 192.0.2.1 at
    00:00:01.000 of the sixth day after the epoch and the reply being read
    40 ms later. *)
Definition sample_world (dgram : list byte) : World :=
  {| ListenPacket := fun _ _ => None;
     LocalAddr := LocalIP;
     LookupIP := fun _ => Ok [map byte.of_Z [192; 0; 2; 1]];
     Getpid := 70000;
     now_UnixNano := 5 * day_ns + 1000 * ns_per_ms;
     WriteTo := fun wb _ => Ok (Z.of_nat (length wb));
     SetReadDeadline := None;
     ReadFrom := Ok (dgram, IPAddr (map byte.of_Z [198; 51; 100; 7]));
     recv_UnixNano := 5 * day_ns + 1040 * ns_per_ms;
     parse_registered := fun _ b => Ok (BodyRaw b);
     float_impl := fun _ => - 2 ^ 63 |}.

(** A Timestamp Reply with identifier 0x0102, sequence 9, originate 77,
    receive 1010 and transmit 1020. *)
Definition sample_reply : list byte :=
  map byte.of_Z [14; 0; 0; 0;  1; 2; 0; 9;  0; 0; 0; 77;  0; 0; 3; 242;  0; 0; 3; 252].

(** A Timestamp Reply cut after its header. *)
Definition short_reply : list byte := map byte.of_Z [14; 0; 241; 255].

(** An Echo Reply. *)
Definition echo_reply : list byte := map byte.of_Z [0; 0; 255; 255; 1; 2; 0; 9].

Definition sample_host : String.string := "remote.example"%string.

Definition sample_Timestamp : Timestamp :=
  {| ID := 4464; Seq := 1; OriginTimestamp := 86399999;
     ReceiveTimestamp := 4294967295; TransmitTimestamp := 0 |}.

(** ** [main] *)

(** How [main] ends: it returns, or it panics. *)
Inductive MainEnd :=
| MainReturned
| MainPanicked.

(** What one run of [main] does: how often [help] is called, the run of
    [doPing] if it gets that far, and how it ends. *)
Record MainRun := mkMainRun {
  help_calls : nat;
  ping : option Run;
  main_end : MainEnd
}.

(** [main()], from the value [args] of [flag.Args()] once [flag.Parse()]
    has returned and the answer [raw_ok] of
    [nettest.SupportsRawIPSocket()].  [help] only prints; [flag.Args()[0]]
    panics on an empty slice; the error that [doPing] returns is dropped. *)
Definition main (w : World) (args : list String.string) (raw_ok : bool) : MainRun :=
  let h1 := if negb (Nat.eqb (length args) 1) then 1%nat else 0%nat in
  match args with
  | [] => {| help_calls := h1; ping := None; main_end := MainPanicked |}
  | host :: _ =>
      let h2 := if negb raw_ok then 1%nat else 0%nat in
      let r := doPing w host main_Ping 0 in
      {| help_calls := (h1 + h2)%nat;
         ping := Some r;
         main_end := match result r with
                     | Returned _ => MainReturned
                     | Panicked => MainPanicked
                     end |}
  end.

(** The world [w] on a platform whose out-of-range float64 to int64
    conversion yields [impl]. *)
Definition with_float_impl (w : World) (impl : float64 -> Z) : World :=
  {| ListenPacket := ListenPacket w;
     LocalAddr := LocalAddr w;
     LookupIP := LookupIP w;
     Getpid := Getpid w;
     now_UnixNano := now_UnixNano w;
     WriteTo := WriteTo w;
     SetReadDeadline := SetReadDeadline w;
     ReadFrom := ReadFrom w;
     recv_UnixNano := recv_UnixNano w;
     parse_registered := parse_registered w;
     float_impl := impl |}.

(** * Properties *)

(** ** Machine integers *)

Lemma uint32_range x : is_uint32 (uint32 x).
Proof.
  unfold is_uint32, uint32.
  pose proof (Z.mod_pos_bound x (2 ^ 32) eq_refl). lia.
Qed.

Lemma uint32_small x : is_uint32 x -> uint32 x = x.
Proof. unfold is_uint32, uint32. intros H. apply Z.mod_small. lia. Qed.

Lemma int64_range x : is_int64 (int64 x).
Proof.
  unfold is_int64, int64.
  pose proof (Z.mod_pos_bound (x + 2 ^ 63) (2 ^ 64) eq_refl). lia.
Qed.

Lemma int64_small x : is_int64 x -> int64 x = x.
Proof.
  unfold is_int64, int64. intros H.
  rewrite Z.mod_small; lia.
Qed.

(** [a | b] is [a + b] when [a] has its [n] low bits clear and [b] fits
    them. *)
Lemma lor_disjoint a b n :
  0 <= n -> 0 <= b < 2 ^ n -> a mod 2 ^ n = 0 -> Z.lor a b = a + b.
Proof.
  intros Hn Hb Ha.
  rewrite <- Z.add_lor_land.
  assert (E : Z.land a b = 0).
  { apply Z.bits_inj'. intros i Hi.
    rewrite Z.land_spec, Z.bits_0.
    destruct (Z.lt_ge_cases i n) as [Hlt | Hge].
    - replace (Z.testbit a i) with false; [reflexivity|].
      symmetry. rewrite <- (Z.mod_pow2_bits_low a n i) by lia.
      rewrite Ha. apply Z.bits_0.
    - replace (Z.testbit b i) with false; [apply andb_false_r|].
      symmetry. rewrite <- (Z.mod_small b (2 ^ n)) by lia.
      apply Z.mod_pow2_bits_high. lia. }
  rewrite E. lia.
Qed.

(** Two bytes, high byte first, give back a 16-bit value. *)
Lemma be16_roundtrip x :
  is_uint16 x ->
  Z.lor (int64 (Z.shiftl (byte.wrap (Z.shiftr x 8)) 8)) (byte.wrap x) = x.
Proof.
  unfold is_uint16, byte.wrap. intros Hx.
  rewrite Z.shiftr_div_pow2, Z.shiftl_mul_pow2 by lia.
  change (2 ^ 8) with 256 in *. change (2 ^ 16 - 1) with 65535 in *.
  rewrite int64_small by (unfold is_int64; change (2 ^ 63) with 9223372036854775808;
                          Z.div_mod_to_equations; lia).
  rewrite (lor_disjoint _ _ 8) by (change (2 ^ 8) with 256; Z.div_mod_to_equations; lia).
  Z.div_mod_to_equations; lia.
Qed.

(** Four bytes, high byte first, give back a 32-bit value. *)
Lemma be32_roundtrip x :
  is_uint32 x ->
  Z.lor (Z.lor (Z.lor (uint32 (Z.shiftl (byte.wrap (Z.shiftr x 24)) 24))
                      (uint32 (Z.shiftl (byte.wrap (Z.shiftr x 16)) 16)))
               (uint32 (Z.shiftl (byte.wrap (Z.shiftr x 8)) 8)))
        (byte.wrap x) = x.
Proof.
  unfold is_uint32, byte.wrap, uint32. intros Hx.
  rewrite !Z.shiftr_div_pow2, !Z.shiftl_mul_pow2 by lia.
  change (2 ^ 8) with 256. change (2 ^ 16) with 65536.
  change (2 ^ 24) with 16777216. change (2 ^ 32) with 4294967296 in *.
  set (b0 := (x / 16777216) mod 256). set (b1 := (x / 65536) mod 256).
  set (b2 := (x / 256) mod 256). set (b3 := x mod 256).
  assert (H0 : 0 <= b0 < 256) by (apply Z.mod_pos_bound; lia).
  assert (H1 : 0 <= b1 < 256) by (apply Z.mod_pos_bound; lia).
  assert (H2 : 0 <= b2 < 256) by (apply Z.mod_pos_bound; lia).
  assert (H3 : 0 <= b3 < 256) by (apply Z.mod_pos_bound; lia).
  assert (E : x = b0 * 16777216 + b1 * 65536 + b2 * 256 + b3).
  { subst b0 b1 b2 b3. Z.div_mod_to_equations. lia. }
  clearbody b0 b1 b2 b3.
  rewrite (Z.mod_small (b0 * 16777216)), (Z.mod_small (b1 * 65536)),
    (Z.mod_small (b2 * 256)) by lia.
  rewrite (lor_disjoint (b0 * 16777216) (b1 * 65536) 24);
    [ | lia | change (2 ^ 24) with 16777216; lia
      | change (2 ^ 24) with 16777216; apply Z.mod_mul; lia ].
  rewrite (lor_disjoint _ (b2 * 256) 16);
    [ | lia | change (2 ^ 16) with 65536; lia
      | change (2 ^ 16) with 65536;
        replace (b0 * 16777216 + b1 * 65536) with ((b0 * 256 + b1) * 65536) by lia;
        apply Z.mod_mul; lia ].
  rewrite (lor_disjoint _ b3 8);
    [ lia | lia | change (2 ^ 8) with 256; lia
      | change (2 ^ 8) with 256;
        replace (b0 * 16777216 + b1 * 65536 + b2 * 256)
          with ((b0 * 65536 + b1 * 256 + b2) * 256) by lia;
        apply Z.mod_mul; lia ].
Qed.

(** ** WireCodec *)

Lemma Marshal_length t proto : length (fst (Marshal t proto)) = 16%nat.
Proof. reflexivity. Qed.

Lemma ParseTimestamp_bad_length b :
  length b <> 16%nat ->
  ParseTimestamp b = (None, Some (ErrBodyLength (length b))).
Proof.
  intros H. unfold ParseTimestamp, marshalledTimestampLen.
  destruct (Nat.eqb_spec (length b) 16) as [E | E]; [contradiction | reflexivity].
Qed.

Lemma ParseTimestamp_good_length b :
  length b = 16%nat ->
  exists ts, ParseTimestamp b = (Some ts, None).
Proof.
  intros H. unfold ParseTimestamp, marshalledTimestampLen.
  rewrite H. cbn [Nat.eqb negb]. eexists. reflexivity.
Qed.

(** What [ParseTimestamp] reads from 16 bytes. *)
Lemma ParseTimestamp_16 b :
  length b = 16%nat ->
  ParseTimestamp b
  = (Some {| ID := Z.lor (int64 (Z.shiftl (at_ b 0) 8)) (at_ b 1);
             Seq := Z.lor (int64 (Z.shiftl (at_ b 2) 8)) (at_ b 3);
             OriginTimestamp := parseInt b 4;
             ReceiveTimestamp := parseInt b 8;
             TransmitTimestamp := parseInt b 12 |}, None).
Proof.
  intros H. unfold ParseTimestamp, marshalledTimestampLen.
  rewrite H. reflexivity.
Qed.

(** C1. Round trip: a Timestamp whose identifier and sequence are 16-bit
    values and whose three timestamps are 32-bit values is what
    [ParseTimestamp] returns, without error, on the 16 bytes that [Marshal]
    produces for it; all five fields agree. *)
Theorem C1_parse_marshal_roundtrip (t : Timestamp) (proto : Z) :
  is_uint16 (ID t) -> is_uint16 (Seq t) ->
  is_uint32 (OriginTimestamp t) -> is_uint32 (ReceiveTimestamp t) ->
  is_uint32 (TransmitTimestamp t) ->
  ParseTimestamp (fst (Marshal t proto)) = (Some t, None).
Proof.
  intros HI HS HO HR HT. destruct t as [i s o r x].
  cbn [ID Seq OriginTimestamp ReceiveTimestamp TransmitTimestamp] in *.
  unfold ParseTimestamp, Marshal, unparseInt, parseInt, at_.
  cbn [fst app length marshalledTimestampLen Nat.eqb negb nth Nat.add].
  rewrite !byte.unsigned_of_Z.
  cbn [ID Seq OriginTimestamp ReceiveTimestamp TransmitTimestamp].
  rewrite (be16_roundtrip i HI), (be16_roundtrip s HS).
  rewrite (be32_roundtrip o HO), (be32_roundtrip r HR), (be32_roundtrip x HT).
  reflexivity.
Qed.

Lemma C1_parse_marshal_roundtrip_witness :
  ParseTimestamp (fst (Marshal sample_Timestamp ProtocolICMP))
  = (Some sample_Timestamp, None).
Proof.
  apply (C1_parse_marshal_roundtrip sample_Timestamp ProtocolICMP);
    unfold is_uint16, is_uint32, sample_Timestamp; cbn; lia.
Defined.

(** C4. Fixed length: [Marshal] produces exactly 16 bytes and no error for
    every Timestamp; [ParseTimestamp] returns no Timestamp and the
    body-length error on every input whose length is not 16, among them
    the lengths 0, 15 and 17, and returns a Timestamp and no error on every
    input of length 16. *)
Theorem C4_fixed_length :
  (forall t proto,
      length (fst (Marshal t proto)) = 16%nat /\ snd (Marshal t proto) = None)
  /\ (forall b, length b <> 16%nat ->
        ParseTimestamp b = (None, Some (ErrBodyLength (length b))))
  /\ (forall b, length b = 0%nat \/ length b = 15%nat \/ length b = 17%nat ->
        ParseTimestamp b = (None, Some (ErrBodyLength (length b))))
  /\ (forall b, length b = 16%nat ->
        exists ts, ParseTimestamp b = (Some ts, None)).
Proof.
  split; [| split; [| split]].
  - intros t proto. split; reflexivity.
  - apply ParseTimestamp_bad_length.
  - intros b H. apply ParseTimestamp_bad_length. lia.
  - apply ParseTimestamp_good_length.
Qed.

Lemma C4_fixed_length_witness :
  ParseTimestamp [] = (None, Some (ErrBodyLength 0))
  /\ ParseTimestamp (repeat Byte.x00 15) = (None, Some (ErrBodyLength 15))
  /\ ParseTimestamp (repeat Byte.xff 17) = (None, Some (ErrBodyLength 17))
  /\ exists ts, ParseTimestamp (repeat Byte.x2a 16) = (Some ts, None).
Proof.
  destruct C4_fixed_length as (_ & Hbad & Hlen & Hgood).
  split; [| split; [| split]].
  - apply (Hlen []). left. reflexivity.
  - apply (Hbad (repeat Byte.x00 15)). cbn. lia.
  - apply (Hlen (repeat Byte.xff 17)). right. right. reflexivity.
  - apply (Hgood (repeat Byte.x2a 16)). reflexivity.
Defined.

(** ** float64: integers below 2^53 convert exactly *)

Lemma digits2_pos_size p : digits2_pos p = Pos.size p.
Proof. induction p; cbn; congruence. Qed.

Lemma digits2_pos_iter_xO p k :
  digits2_pos (Pos.iter xO p k) = (digits2_pos p + k)%positive.
Proof.
  induction k as [| k IH] using Pos.peano_ind.
  - cbn. lia.
  - rewrite Pos.iter_succ. cbn [digits2_pos]. rewrite IH. lia.
Qed.

Lemma pos_iter_xO p k : Z.pos (Pos.iter xO p k) = Z.pos p * 2 ^ Z.pos k.
Proof.
  induction k as [| k IH] using Pos.peano_ind.
  - cbn. lia.
  - rewrite Pos.iter_succ, Pos2Z.inj_xO, IH, Pos2Z.inj_succ, Z.pow_succ_r by lia.
    lia.
Qed.

(** The number of binary digits of a positive number below 2^53 is at most
    53. *)
Lemma digits2_pos_bound p :
  Z.pos p < 2 ^ 53 -> Z.pos (digits2_pos p) <= 53.
Proof.
  intros H. rewrite digits2_pos_size.
  pose proof (Pos.size_le p) as L.
  destruct (Z.le_gt_cases (Z.pos (Pos.size p)) 53) as [Hle | Hgt]; [assumption|].
  exfalso.
  assert (E : 2 ^ 54 <= 2 ^ Z.pos (Pos.size p)).
  { apply Z.pow_le_mono_r; lia. }
  assert (L' : Z.pos (2 ^ Pos.size p) <= Z.pos p~0) by lia.
  rewrite Pos2Z.inj_pow in L'.
  change (2 ^ 54) with (2 * 2 ^ 53) in E. lia.
Qed.

(** A 53-digit mantissa with an exponent in range is already rounded. *)
Lemma binary_round_aux_canonical sx m e :
  Z.pos (digits2_pos m) = 53 -> - 1074 <= e <= 971 ->
  binary_round_aux 53 1024 sx (Z.pos m) e loc_Exact = S754_finite sx m e.
Proof.
  intros Hd He.
  assert (F : fexp 53 1024 (53 + e) - e = 0).
  { unfold fexp, emin. lia. }
  unfold binary_round_aux, shr_fexp. cbn [Zdigits2 shr_record_of_loc].
  rewrite Hd, F. cbn [shr shr_m loc_of_shr_record round_nearest_even Zdigits2].
  rewrite Hd, F. cbn [shr shr_m].
  destruct (Z.leb_spec e (1024 - 53)); [reflexivity | lia].
Qed.

Lemma binary_round_exact sx p :
  Z.pos p < 2 ^ 53 ->
  exists m e, binary_round 53 1024 sx p 0 = S754_finite sx m e
              /\ e <= 0 /\ Z.pos m = Z.pos p * 2 ^ (- e).
Proof.
  intros Hp. pose proof (digits2_pos_bound p Hp) as Hd.
  unfold binary_round, shl_align.
  assert (F : fexp 53 1024 (Z.pos (digits2_pos p) + 0) = Z.pos (digits2_pos p) - 53).
  { unfold fexp, emin. lia. }
  rewrite F.
  destruct (Z.pos (digits2_pos p) - 53 - 0) as [| k | k] eqn:E; try lia.
  - exists p, 0. split; [| split]; try lia.
    apply binary_round_aux_canonical; lia.
  - exists (Pos.iter xO p k), (Z.pos (digits2_pos p) - 53). split; [| split].
    + apply binary_round_aux_canonical; [| lia].
      rewrite digits2_pos_iter_xO. lia.
    + lia.
    + rewrite pos_iter_xO. f_equal. f_equal. lia.
Qed.

(** [float64(x)] holds [x] itself when [|x| < 2^53]. *)
Lemma float64_of_int_exact x :
  Z.abs x < 2 ^ 53 ->
  float64_trunc (float64_of_int x) = Some x
  /\ float64_trunc (math_Abs (float64_of_int x)) = Some (Z.abs x).
Proof.
  intros Hx. unfold float64_of_int, binary_normalize.
  destruct x as [| p | p].
  - split; reflexivity.
  - destruct (binary_round_exact false p) as (m & e & -> & He & Hm); [lia|].
    assert (V : Z.pos m / 2 ^ (- e) = Z.pos p).
    { rewrite Hm. apply Z.div_mul. apply Z.pow_nonzero; lia. }
    cbn [math_Abs SFabs float64_trunc].
    destruct (Z.leb_spec 0 e) as [L | L].
    + assert (e = 0) by lia. subst e. cbn in Hm. split; f_equal; cbn; lia.
    + rewrite V. split; reflexivity.
  - destruct (binary_round_exact true p) as (m & e & -> & He & Hm); [lia|].
    assert (V : Z.pos m / 2 ^ (- e) = Z.pos p).
    { rewrite Hm. apply Z.div_mul. apply Z.pow_nonzero; lia. }
    cbn [math_Abs SFabs float64_trunc].
    destruct (Z.leb_spec 0 e) as [L | L].
    + assert (e = 0) by lia. subst e. cbn in Hm. split; f_equal; cbn; lia.
    + rewrite V. split; reflexivity.
Qed.

(** [int64(math.Abs(float64(x)))] is [|x|] when [|x| < 2^53]. *)
Lemma int64_abs_float64 impl x :
  Z.abs x < 2 ^ 53 ->
  int64_of_float64 impl (math_Abs (float64_of_int x)) = Z.abs x.
Proof.
  intros Hx. unfold int64_of_float64.
  destruct (float64_of_int_exact x Hx) as [_ ->].
  assert (H1 : (- 2 ^ 63 <=? Z.abs x) = true) by (apply Z.leb_le; lia).
  assert (H2 : (Z.abs x <=? 2 ^ 63 - 1) = true) by (apply Z.leb_le; lia).
  rewrite H1, H2. reflexivity.
Qed.

(** ** ClockSampler *)

(** A millisecond count obtained from an [int64] of nanoseconds. *)
Lemma quot_ms_range n :
  is_int64 n -> - 2 ^ 44 <= Z.quot n ns_per_ms <= 2 ^ 44.
Proof.
  unfold is_int64, ns_per_ms. intros H.
  change (2 ^ 63) with 9223372036854775808 in H.
  change (2 ^ 44) with 17592186044416.
  pose proof (Z.quot_rem n 1000000 ltac:(lia)) as E.
  pose proof (Z.rem_bound_abs n 1000000 ltac:(lia)) as B.
  lia.
Qed.

Lemma today_range now_ns : - 2 ^ 44 <= today now_ns <= 2 ^ 44.
Proof. unfold today. apply quot_ms_range, int64_range. Qed.

(** Every value of [receivedTime] stays far below 2^52 in size. *)
Lemma receivedTime_range now_ns recv_ns :
  is_int64 recv_ns ->
  receivedTime now_ns recv_ns = Z.quot recv_ns ns_per_ms - today now_ns
  /\ - 2 ^ 45 <= receivedTime now_ns recv_ns <= 2 ^ 45.
Proof.
  intros H. unfold receivedTime.
  pose proof (quot_ms_range recv_ns H) as B1.
  pose proof (today_range now_ns) as B2.
  change (2 ^ 44) with 17592186044416 in *.
  change (2 ^ 45) with 35184372088832.
  rewrite int64_small; [lia|].
  unfold is_int64. change (2 ^ 63) with 9223372036854775808. lia.
Qed.

(** After the epoch, [today] is the millisecond count of the last midnight
    at or before [now], and [transmitTime] the milliseconds elapsed since. *)
Lemma today_midnight now_ns :
  0 <= now_ns -> is_int64 now_ns ->
  today now_ns = 86400000 * (now_ns / day_ns)
  /\ transmitTime now_ns = Z.quot now_ns ns_per_ms - today now_ns
  /\ 0 <= transmitTime now_ns < 86400000.
Proof.
  unfold is_int64, today, transmitTime, today, Truncate_day_UnixNano, day_ns, ns_per_ms.
  change (24 * 3600 * 1000000000) with 86400000000000.
  change (2 ^ 63) with 9223372036854775808.
  intros H0 H.
  pose proof (Z.div_mod now_ns 86400000000000 ltac:(lia)) as E.
  pose proof (Z.mod_pos_bound now_ns 86400000000000 ltac:(lia)) as B.
  set (d := now_ns / 86400000000000) in *.
  set (r := now_ns mod 86400000000000) in *.
  assert (Hd : 0 <= d) by (subst d; apply Z.div_pos; lia).
  replace (now_ns - r) with (86400000 * d * 1000000) by lia.
  rewrite int64_small
    by (unfold is_int64; change (2 ^ 63) with 9223372036854775808; lia).
  rewrite Z.quot_mul by lia.
  rewrite (Z.quot_div_nonneg now_ns) by lia.
  assert (Q : now_ns / 1000000 = 86400000 * d + r / 1000000).
  { rewrite E. replace (86400000000000 * d + r) with (r + (86400000 * d) * 1000000) by lia.
    rewrite Z.div_add by lia. lia. }
  assert (R : 0 <= r / 1000000 < 86400000).
  { split; [apply Z.div_pos; lia | apply Z.div_lt_upper_bound; lia]. }
  rewrite int64_small
    by (unfold is_int64; change (2 ^ 63) with 9223372036854775808; lia).
  rewrite uint32_small
    by (unfold is_uint32; change (2 ^ 32) with 4294967296; lia).
  lia.
Qed.

(** ** DeltaCalculator *)

(** The arithmetic of [rtt] and [delta] without wrap-around or rounding,
    for 32-bit [T1], [T2], [T3] and any [T4] of size at most 2^52. *)
Lemma compute_rtt_exact impl T1 T2 T3 T4 :
  is_uint32 T1 -> is_uint32 T2 -> is_uint32 T3 -> - 2 ^ 52 <= T4 <= 2 ^ 52 ->
  compute_rtt impl T1 T2 T3 T4 = Z.abs ((T2 - T1) + (T4 - T3))
  /\ compute_delta (compute_rtt impl T1 T2 T3 T4) T1 T2
     = Z.quot (compute_rtt impl T1 T2 T3 T4) 2 + T1 - T2.
Proof.
  unfold is_uint32. change (2 ^ 32) with 4294967296. change (2 ^ 52) with 4503599627370496.
  intros H1 H2 H3 H4.
  assert (S : forall x, - 2 ^ 62 <= x <= 2 ^ 62 -> int64 x = x).
  { intros x Hx. apply int64_small. unfold is_int64.
    change (2 ^ 62) with 4611686018427387904 in Hx.
    change (2 ^ 63) with 9223372036854775808. lia. }
  change (2 ^ 62) with 4611686018427387904 in S.
  assert (R : compute_rtt impl T1 T2 T3 T4 = Z.abs ((T2 - T1) + (T4 - T3))).
  { unfold compute_rtt.
    rewrite (S T2), (S T1), (S T3) by lia.
    rewrite (S (T2 - T1)) by lia.
    rewrite (S (T2 - T1 + T4)) by lia.
    rewrite (S (T2 - T1 + T4 - T3)) by lia.
    rewrite int64_abs_float64 by (change (2 ^ 53) with 9007199254740992; lia).
    f_equal. lia. }
  split; [exact R|].
  rewrite R. unfold compute_delta.
  set (a := Z.abs (T2 - T1 + (T4 - T3))).
  assert (Ha : 0 <= a <= 4503599627370496 + 2 * 4294967296) by (subst a; lia).
  assert (Hq : 0 <= Z.quot a 2 <= a).
  { rewrite Z.quot_div_nonneg by lia. split; [apply Z.div_pos; lia|].
    apply Z.div_le_upper_bound; lia. }
  rewrite (S T1), (S T2) by lia.
  rewrite (S (Z.quot a 2 + T1)) by lia.
  rewrite S by lia. reflexivity.
Qed.

(** C2. For 32-bit samples [T1], [T2], [T3] and every local receive sample
    [T4] that [doPing] can compute from an [int64] clock reading, the
    round-trip time is [|(T2 - T1) + (T4 - T3)|] and the clock delta is
    [RTT/2 + T1 - T2], the division being Go's integer division; and for
    T1=1000, T2=1010, T3=1020, T4=1040 they are 30 and 5. *)
Theorem C2_rtt_and_delta :
  (forall impl T1 T2 T3 now_ns recv_ns,
      is_uint32 T1 -> is_uint32 T2 -> is_uint32 T3 -> is_int64 recv_ns ->
      let T4 := receivedTime now_ns recv_ns in
      let rtt := compute_rtt impl T1 T2 T3 T4 in
      rtt = Z.abs ((T2 - T1) + (T4 - T3))
      /\ compute_delta rtt T1 T2 = Z.quot rtt 2 + T1 - T2
      /\ Z.quot rtt 2 = rtt / 2)
  /\ (forall impl,
        compute_rtt impl 1000 1010 1020 1040 = 30
        /\ compute_delta (compute_rtt impl 1000 1010 1020 1040) 1000 1010 = 5).
Proof.
  split.
  - intros impl T1 T2 T3 now_ns recv_ns H1 H2 H3 Hr T4 rtt.
    destruct (receivedTime_range now_ns recv_ns Hr) as [_ B].
    fold T4 in B.
    assert (B' : - 2 ^ 52 <= T4 <= 2 ^ 52).
    { change (2 ^ 45) with 35184372088832 in B.
      change (2 ^ 52) with 4503599627370496. lia. }
    destruct (compute_rtt_exact impl T1 T2 T3 T4 H1 H2 H3 B') as [R D].
    fold rtt in R, D. split; [exact R | split; [exact D |]].
    apply Z.quot_div_nonneg; lia.
  - intros impl. split; reflexivity.
Qed.

Lemma C2_rtt_and_delta_witness :
  compute_rtt (fun _ => 0) 86399990 5 7 (receivedTime 86399990000000 86400020000000)
  = Z.abs ((5 - 86399990) + (receivedTime 86399990000000 86400020000000 - 7)).
Proof.
  destruct C2_rtt_and_delta as [H _].
  apply (H (fun _ => 0) 86399990 5 7 86399990000000 86400020000000);
    unfold is_uint32, is_int64; cbn; lia.
Defined.

(** C9. The round-trip time is never negative, for 32-bit samples [T1],
    [T2], [T3] and every local receive sample that [doPing] can compute from
    an [int64] clock reading. *)
Theorem C9_rtt_nonneg impl T1 T2 T3 now_ns recv_ns :
  is_uint32 T1 -> is_uint32 T2 -> is_uint32 T3 -> is_int64 recv_ns ->
  0 <= compute_rtt impl T1 T2 T3 (receivedTime now_ns recv_ns).
Proof.
  intros H1 H2 H3 Hr.
  destruct (receivedTime_range now_ns recv_ns Hr) as [_ B].
  assert (B' : - 2 ^ 52 <= receivedTime now_ns recv_ns <= 2 ^ 52).
  { change (2 ^ 45) with 35184372088832 in B.
    change (2 ^ 52) with 4503599627370496. lia. }
  destruct (compute_rtt_exact impl T1 T2 T3 _ H1 H2 H3 B') as [-> _].
  apply Z.abs_nonneg.
Qed.

Lemma C9_rtt_nonneg_witness :
  0 <= compute_rtt (fun _ => - 1) 4294967295 0 4294967295
         (receivedTime 0 (- 9223372036854775808)).
Proof.
  apply (C9_rtt_nonneg (fun _ => - 1) 4294967295 0 4294967295 0 (- 9223372036854775808));
    unfold is_uint32, is_int64; cbn; lia.
Defined.




(** ** ProtocolExchange *)

Lemma ICMPType_eqb_eq a b : ICMPType_eqb a b = true <-> a = b.
Proof.
  destruct a as [x | x], b as [y | y]; cbn; split; intros H;
    try discriminate; try (apply Z.eqb_eq in H; congruence);
    try (apply Z.eqb_eq; congruence).
Qed.

(** The [default] branch of the [switch]. *)
Lemma doPing_reply_other_type impl T1 T4 rm peer :
  Type_ rm <> ICMPTypeTimestampReply ->
  doPing_reply impl T1 T4 rm peer
  = (None, Returned (Some (ErrUnexpectedReply rm peer))).
Proof.
  intros H. unfold doPing_reply.
  destruct (ICMPType_eqb (Type_ rm) ICMPTypeTimestampReply) eqn:E; [| reflexivity].
  apply ICMPType_eqb_eq in E. contradiction.
Qed.

(** The Timestamp Reply branch on a body that [ParseTimestamp] accepts. *)
Lemma doPing_reply_timestamp impl T1 T4 rm peer ts :
  Type_ rm = ICMPTypeTimestampReply ->
  ParseTimestamp (fst (Body_Marshal (Body rm) ProtocolICMP)) = (Some ts, None) ->
  doPing_reply impl T1 T4 rm peer
  = (Some {| Originate := OriginTimestamp ts;
             Receive := ReceiveTimestamp ts;
             Transmit := TransmitTimestamp ts;
             tsrtt := compute_rtt impl T1 (ReceiveTimestamp ts) (TransmitTimestamp ts) T4;
             delta := compute_delta
                        (compute_rtt impl T1 (ReceiveTimestamp ts) (TransmitTimestamp ts) T4)
                        T1 (ReceiveTimestamp ts) |},
     Returned None).
Proof.
  intros Ht Hp. unfold doPing_reply. rewrite Ht. cbn [ICMPType_eqb ICMPTypeTimestampReply].
  rewrite Z.eqb_refl.
  destruct (Body_Marshal (Body rm) ProtocolICMP) as [b e]. cbn [fst] in Hp.
  rewrite Hp. reflexivity.
Qed.

(** The Timestamp Reply branch on a body that [ParseTimestamp] rejects:
    the nil pointer is dereferenced. *)
Lemma doPing_reply_bad_body impl T1 T4 rm peer :
  Type_ rm = ICMPTypeTimestampReply ->
  length (fst (Body_Marshal (Body rm) ProtocolICMP)) <> 16%nat ->
  doPing_reply impl T1 T4 rm peer = (None, Panicked).
Proof.
  intros Ht Hl. unfold doPing_reply. rewrite Ht. cbn [ICMPType_eqb ICMPTypeTimestampReply].
  rewrite Z.eqb_refl.
  destruct (Body_Marshal (Body rm) ProtocolICMP) as [b e]. cbn [fst] in Hl.
  rewrite (ParseTimestamp_bad_length b Hl). reflexivity.
Qed.

(** A run that reaches the [switch] ends as the [switch] does. *)
Lemma doPing_reaches_switch w host tt seq out T1 T4 rm peer :
  doPing_exchange w host tt seq = (out, Ok (T1, T4, rm, peer)) ->
  doPing w host tt seq
  = {| sent := out;
       printed := fst (doPing_reply (float_impl w) T1 T4 rm peer);
       result := snd (doPing_reply (float_impl w) T1 T4 rm peer) |}.
Proof.
  intros H. unfold doPing. rewrite H.
  destruct (doPing_reply (float_impl w) T1 T4 rm peer). reflexivity.
Qed.

(** Whatever is handed to [WriteTo] is the marshalled request. *)
Lemma doPing_sent w host tt seq wb dst :
  sent (doPing w host tt seq) = Some (wb, dst) ->
  Message_Marshal (request w tt seq) = (wb, None).
Proof.
  unfold doPing.
  assert (E : forall out r,
             doPing_exchange w host tt seq = (out, r) ->
             out = Some (wb, dst) -> Message_Marshal (request w tt seq) = (wb, None)).
  { unfold doPing_exchange. intros out r.
    destruct (ListenPacket w (network tt) (address tt)); [intros [= <- _]; discriminate|].
    destruct (getAddr w host (protocol tt)) as [d | e]; [| intros [= <- _]; discriminate].
    destruct (Message_Marshal (request w tt seq)) as [b [e |]];
      [intros [= <- _]; discriminate|].
    destruct (WriteTo w b d) as [n | e].
    2: { intros [= <- _] [= -> _]. reflexivity. }
    destruct (negb (n =? Z.of_nat (length b))).
    { intros [= <- _] [= -> _]. reflexivity. }
    destruct (SetReadDeadline w).
    { intros [= <- _] [= -> _]. reflexivity. }
    destruct (ReadFrom w) as [[dg pr] | e].
    2: { intros [= <- _] [= -> _]. reflexivity. }
    destruct (ParseMessage (parse_registered w) (protocol tt) (firstn 1500 dg));
      intros [= <- _] [= -> _]; reflexivity. }
  destruct (doPing_exchange w host tt seq) as [out r] eqn:X.
  intros S. apply (E out r eq_refl).
  destruct r as [[[[t1 t4] rm] pr] | e].
  - destruct (doPing_reply (float_impl w) t1 t4 rm pr). exact S.
  - exact S.
Qed.

(** What a run that reaches the [switch] has been through. *)
Lemma doPing_exchange_inv w host tt seq out T1 T4 rm peer :
  doPing_exchange w host tt seq = (out, Ok (T1, T4, rm, peer)) ->
  exists dst wb dgram,
    ListenPacket w (network tt) (address tt) = None
    /\ getAddr w host (protocol tt) = Ok dst
    /\ Message_Marshal (request w tt seq) = (wb, None)
    /\ out = Some (wb, dst)
    /\ WriteTo w wb dst = Ok (Z.of_nat (length wb))
    /\ SetReadDeadline w = None
    /\ ReadFrom w = Ok (dgram, peer)
    /\ T1 = transmitTime (now_UnixNano w)
    /\ T4 = receivedTime (now_UnixNano w) (recv_UnixNano w)
    /\ ParseMessage (parse_registered w) (protocol tt) (firstn 1500 dgram) = Ok rm.
Proof.
  unfold doPing_exchange.
  destruct (ListenPacket w (network tt) (address tt)) eqn:E1; [discriminate|].
  destruct (getAddr w host (protocol tt)) as [d | e] eqn:E2; [| discriminate].
  destruct (Message_Marshal (request w tt seq)) as [b [e |]] eqn:E3; [discriminate|].
  destruct (WriteTo w b d) as [n | e] eqn:E4; [| discriminate].
  destruct (Z.eqb_spec n (Z.of_nat (length b))) as [-> | N]; [| discriminate].
  cbn [negb].
  destruct (SetReadDeadline w) eqn:E5; [discriminate|].
  destruct (ReadFrom w) as [[dg pr] | e] eqn:E6; [| discriminate].
  destruct (ParseMessage (parse_registered w) (protocol tt) (firstn 1500 dg)) as [m | e]
    eqn:E7; [| discriminate].
  intros [= <- <- <- <- <-].
  exists d, b, dg. repeat split; assumption || reflexivity.
Qed.

(** A parsed message of type Timestamp Reply carries, as its body, the
    bytes of the datagram after the four header bytes. *)
Lemma ParseMessage_timestamp_reply pr proto dgram rm :
  ParseMessage pr proto dgram = Ok rm ->
  Type_ rm = ICMPTypeTimestampReply ->
  (4 <= length dgram)%nat /\ Body rm = BodyRaw (skipn 4 dgram).
Proof.
  unfold ParseMessage.
  destruct (Nat.ltb_spec (length dgram) 4) as [L | L]; [discriminate|].
  destruct (proto =? ProtocolICMP).
  - destruct (parseFns (ICMPv4 (at_ dgram 0))) eqn:F.
    + destruct (pr (ICMPv4 (at_ dgram 0)) (skipn 4 dgram)); [| discriminate].
      intros [= <-]. cbn [Type_]. intros T. rewrite T in F. discriminate.
    + intros [= <-]. cbn [Type_ Body]. intros _. split; [lia | reflexivity].
  - destruct (proto =? ProtocolIPv6ICMP); [| discriminate].
    destruct (parseFns (ICMPv6 (at_ dgram 0)));
      [destruct (pr (ICMPv6 (at_ dgram 0)) (skipn 4 dgram)); [| discriminate] |];
      intros [= <-]; cbn [Type_]; discriminate.
Qed.

(** The extent of the nil dereference: every run in which a Timestamp
    Reply arrives whose length is not 20 bytes panics. *)
Lemma doPing_panics_on_bad_length w host tt seq out T1 T4 rm peer dgram :
  doPing_exchange w host tt seq = (out, Ok (T1, T4, rm, peer)) ->
  ReadFrom w = Ok (dgram, peer) ->
  Type_ rm = ICMPTypeTimestampReply ->
  length (firstn 1500 dgram) <> 20%nat ->
  doPing w host tt seq = {| sent := out; printed := None; result := Panicked |}.
Proof.
  intros X R Ht Hl.
  destruct (doPing_exchange_inv _ _ _ _ _ _ _ _ _ X)
    as (dst & wb & dg & _ & _ & _ & _ & _ & _ & R' & _ & _ & P).
  rewrite R in R'. injection R' as <-.
  destruct (ParseMessage_timestamp_reply _ _ _ _ P Ht) as [L B].
  rewrite (doPing_reaches_switch _ _ _ _ _ _ _ _ _ X).
  rewrite doPing_reply_bad_body; [reflexivity | exact Ht |].
  rewrite B. cbn [Body_Marshal fst]. rewrite length_skipn. lia.
Qed.

(** Every field that [parseInt] reads is a 32-bit value. *)
Lemma parseInt_range b start : is_uint32 (parseInt b start).
Proof.
  unfold parseInt, at_.
  set (b0 := byte.unsigned _). set (b1 := byte.unsigned _).
  set (b2 := byte.unsigned _). set (b3 := byte.unsigned _).
  pose proof (uint32_range (Z.shiftl b0 24)) as R0.
  pose proof (uint32_range (Z.shiftl b1 16)) as R1.
  pose proof (uint32_range (Z.shiftl b2 8)) as R2.
  assert (R3 : is_uint32 b3).
  { subst b3. pose proof (byte.unsigned_range (nth (start + 3) b Byte.x00)).
    unfold is_uint32. change (2 ^ 8) with 256 in *.
    change (2 ^ 32) with 4294967296. lia. }
  assert (K : forall x y, is_uint32 x -> is_uint32 y -> is_uint32 (Z.lor x y)).
  { unfold is_uint32. intros x y Hx Hy.
    assert (0 <= Z.lor x y) by (apply Z.lor_nonneg; lia).
    split; [assumption|].
    destruct (Z.eq_dec (Z.lor x y) 0) as [-> | NZ]; [lia|].
    assert (Z.log2 (Z.lor x y) < 32); [| apply Z.log2_lt_pow2 in H0; lia].
    rewrite Z.log2_lor by lia.
    destruct (Z.eq_dec x 0) as [-> | Nx], (Z.eq_dec y 0) as [-> | Ny];
      cbn [Z.log2]; try lia;
      apply Z.max_lub_lt; try (apply Z.log2_lt_pow2; lia); cbn; lia. }
  auto.
Qed.

(** The request on the wire: type, code, two checksum bytes, then the 16
    bytes of the Timestamp body. *)
Lemma Message_Marshal_request w tt seq :
  exists c2 c3,
    Message_Marshal (request w tt seq)
    = (byte.of_Z (ICMPType_number (mtype tt)) :: byte.of_Z 0 :: c2 :: c3
         :: fst (Marshal {| ID := Z.land (Getpid w) 65535;
                            Seq := shl1 seq;
                            OriginTimestamp := transmitTime (now_UnixNano w);
                            ReceiveTimestamp := 0;
                            TransmitTimestamp := 0 |}
                         (ICMPType_protocol (mtype tt))),
       None).
Proof.
  unfold Message_Marshal.
  cbn [request Type_ Code Body Body_Len Len marshalledTimestampLen Nat.eqb negb
       Body_Marshal].
  unfold Marshal at 1. cbn iota.
  destruct (ICMPType_protocol (mtype tt) =? ProtocolIPv6ICMP).
  - do 2 eexists. reflexivity.
  - set (s := checksum _).
    exists (byte.xor Byte.x00 (byte.of_Z s)),
           (byte.xor Byte.x00 (byte.of_Z (Z.shiftr s 8))).
    reflexivity.
Qed.

(** C3 fails on the code.  A Timestamp Reply that consists of the four
    header bytes only: [ParseTimestamp] rejects the empty body, [doPing]
    drops that error and reads a field through the nil pointer, so the run
    panics instead of returning a decode error. *)
Theorem C3_decode_failure_panics :
  ParseTimestamp (skipn 4 short_reply) = (None, Some (ErrBodyLength 0))
  /\ printed (doPing (sample_world short_reply) sample_host main_Ping 0) = None
  /\ result (doPing (sample_world short_reply) sample_host main_Ping 0) = Panicked.
Proof. repeat split; vm_compute; reflexivity. Qed.

(** C5, as stated, fails: the request that reaches [WriteTo] is 20 bytes
    long, not 24. *)
Lemma C5_length_counterexample :
  exists wb dst,
    sent (doPing (sample_world sample_reply) sample_host main_Ping 0) = Some (wb, dst)
    /\ length wb = 20%nat /\ length wb <> 24%nat.
Proof.
  eexists. eexists. split; [vm_compute; reflexivity|].
  split; [reflexivity | discriminate].
Qed.

(** C5, amended.  The request written to the socket is 20 bytes long: the
    4-byte ICMP header (type, code, checksum) followed by the 16 bytes that
    [Marshal] produces for the Timestamp body. *)
Theorem C5_request_is_20_bytes w host tt seq wb dst :
  sent (doPing w host tt seq) = Some (wb, dst) ->
  length wb = 20%nat
  /\ length (firstn 4 wb) = 4%nat
  /\ length (skipn 4 wb) = marshalledTimestampLen
  /\ exists t, Body (request w tt seq) = BodyTimestamp t
               /\ skipn 4 wb = fst (Marshal t (ICMPType_protocol (mtype tt))).
Proof.
  intros S. apply doPing_sent in S.
  destruct (Message_Marshal_request w tt seq) as (c2 & c3 & E).
  rewrite E in S. injection S as <-.
  repeat split; try reflexivity.
  eexists. split; reflexivity.
Qed.

Lemma C5_request_is_20_bytes_witness :
  exists wb dst,
    sent (doPing (sample_world sample_reply) sample_host main_Ping 0) = Some (wb, dst)
    /\ length wb = 20%nat.
Proof.
  eexists. eexists.
  assert (S : sent (doPing (sample_world sample_reply) sample_host main_Ping 0)
              = Some (map byte.of_Z [13; 0; 221; 166; 17; 112; 0; 1; 0; 0; 3; 232;
                                     0; 0; 0; 0; 0; 0; 0; 0],
                      IPAddr (map byte.of_Z [192; 0; 2; 1])))
    by (vm_compute; reflexivity).
  split; [exact S|].
  apply (C5_request_is_20_bytes _ _ _ _ _ _ S).
Defined.

(** From the clock and the wire to the report: when a 16-byte Timestamp
    Reply reaches the [switch] and the clock readings are [int64]s, the
    printed round-trip time and delta are exact. *)
Lemma doPing_report_exact w host tt seq out T1 T4 rm peer :
  is_int64 (recv_UnixNano w) ->
  doPing_exchange w host tt seq = (out, Ok (T1, T4, rm, peer)) ->
  Type_ rm = ICMPTypeTimestampReply ->
  length (fst (Body_Marshal (Body rm) ProtocolICMP)) = 16%nat ->
  exists rep,
    printed (doPing w host tt seq) = Some rep
    /\ result (doPing w host tt seq) = Returned None
    /\ tsrtt rep = Z.abs ((Receive rep - T1) + (T4 - Transmit rep))
    /\ delta rep = Z.quot (tsrtt rep) 2 + T1 - Receive rep.
Proof.
  intros Hr X Ht Hl.
  destruct (doPing_exchange_inv _ _ _ _ _ _ _ _ _ X)
    as (dst & wb & dg & _ & _ & _ & _ & _ & _ & _ & -> & -> & _).
  rewrite (doPing_reaches_switch _ _ _ _ _ _ _ _ _ X).
  rewrite (doPing_reply_timestamp _ _ _ _ _ _ Ht (ParseTimestamp_16 _ Hl)).
  cbn [fst snd printed result]. eexists. split; [reflexivity|]. split; [reflexivity|].
  cbn [tsrtt delta Receive Transmit].
  destruct (receivedTime_range (now_UnixNano w) (recv_UnixNano w) Hr) as [_ B].
  apply compute_rtt_exact.
  - unfold transmitTime. apply uint32_range.
  - apply parseInt_range.
  - apply parseInt_range.
  - change (2 ^ 45) with 35184372088832 in B.
    change (2 ^ 52) with 4503599627370496. lia.
Qed.

(** C7. Whatever [doPing], called as [main] calls it, hands to [WriteTo] is
    the encoding of a message of type Timestamp Request (13) with code 0
    whose body has the originate timestamp set to the send-time clock
    sample [transmitTime] and the receive and transmit timestamps set to 0;
    the same holds of the bytes on the wire. *)
Theorem C7_request_shape w host seq wb dst :
  sent (doPing w host main_Ping seq) = Some (wb, dst) ->
  let wm := request w main_Ping seq in
  Message_Marshal wm = (wb, None)
  /\ Type_ wm = ICMPTypeTimestamp
  /\ Code wm = 0
  /\ (exists t, Body wm = BodyTimestamp t
                /\ OriginTimestamp t = transmitTime (now_UnixNano w)
                /\ ReceiveTimestamp t = 0
                /\ TransmitTimestamp t = 0)
  /\ at_ wb 0 = 13 /\ at_ wb 1 = 0
  /\ parseInt wb 8 = transmitTime (now_UnixNano w)
  /\ parseInt wb 12 = 0
  /\ parseInt wb 16 = 0.
Proof.
  intros S wm. apply doPing_sent in S. fold wm in S.
  split; [exact S|].
  split; [reflexivity|]. split; [reflexivity|].
  split; [eexists; repeat split; reflexivity|].
  destruct (Message_Marshal_request w main_Ping seq) as (c2 & c3 & E).
  fold wm in E. rewrite E in S. injection S as <-.
  unfold parseInt, at_, Marshal, unparseInt.
  cbn [fst app nth Nat.add mtype main_Ping ICMPType_number ICMPTypeTimestamp
       OriginTimestamp ReceiveTimestamp TransmitTimestamp].
  rewrite !byte.unsigned_of_Z.
  rewrite (be32_roundtrip (transmitTime (now_UnixNano w)))
    by (unfold transmitTime; apply uint32_range).
  rewrite (be32_roundtrip 0) by (unfold is_uint32; lia).
  repeat split; reflexivity.
Qed.

Lemma C7_request_shape_witness :
  parseInt (map byte.of_Z [13; 0; 221; 166; 17; 112; 0; 1; 0; 0; 3; 232;
                           0; 0; 0; 0; 0; 0; 0; 0]) 8
  = transmitTime (now_UnixNano (sample_world sample_reply)).
Proof.
  assert (S : sent (doPing (sample_world sample_reply) sample_host main_Ping 0)
              = Some (map byte.of_Z [13; 0; 221; 166; 17; 112; 0; 1; 0; 0; 3; 232;
                                     0; 0; 0; 0; 0; 0; 0; 0],
                      IPAddr (map byte.of_Z [192; 0; 2; 1])))
    by (vm_compute; reflexivity).
  apply (C7_request_shape _ _ _ _ _ S).
Defined.

(** C8. When the message that reaches the [switch] is of any type other
    than Timestamp Reply (an ICMP error type, an Echo Reply, ...), [doPing]
    returns the error that carries that message and the peer address, and
    prints no report: no RTT and no delta. *)
Theorem C8_wrong_reply_type w host tt seq out T1 T4 rm peer :
  doPing_exchange w host tt seq = (out, Ok (T1, T4, rm, peer)) ->
  Type_ rm <> ICMPTypeTimestampReply ->
  doPing w host tt seq
  = {| sent := out;
       printed := None;
       result := Returned (Some (ErrUnexpectedReply rm peer)) |}.
Proof.
  intros X Ht. rewrite (doPing_reaches_switch _ _ _ _ _ _ _ _ _ X).
  rewrite (doPing_reply_other_type _ _ _ _ _ Ht). reflexivity.
Qed.

Lemma C8_wrong_reply_type_witness :
  result (doPing (sample_world echo_reply) sample_host main_Ping 0)
  = Returned (Some (ErrUnexpectedReply
                      {| Type_ := ICMPTypeEchoReply; Code := 0; Checksum := 65535;
                         Body := BodyRaw (map byte.of_Z [1; 2; 0; 9]) |}
                      (IPAddr (map byte.of_Z [198; 51; 100; 7])))).
Proof.
  assert (X : doPing_exchange (sample_world echo_reply) sample_host main_Ping 0
              = (Some (map byte.of_Z [13; 0; 221; 166; 17; 112; 0; 1; 0; 0; 3; 232;
                                      0; 0; 0; 0; 0; 0; 0; 0],
                       IPAddr (map byte.of_Z [192; 0; 2; 1])),
                 Ok (1000, 1040,
                     {| Type_ := ICMPTypeEchoReply; Code := 0; Checksum := 65535;
                        Body := BodyRaw (map byte.of_Z [1; 2; 0; 9]) |},
                     IPAddr (map byte.of_Z [198; 51; 100; 7]))))
    by (vm_compute; reflexivity).
  rewrite (C8_wrong_reply_type _ _ _ _ _ _ _ _ _ X); [reflexivity|].
  cbn. discriminate.
Defined.



(** * Further properties of the code *)

(** ** WireCodec: truncation, the reverse round trip, ranges *)

(** A byte is determined by its value modulo 256. *)
Lemma byte_of_Z_unique z b : byte.wrap z = byte.unsigned b -> byte.of_Z z = b.
Proof.
  intros H. apply byte.unsigned_inj. rewrite byte.unsigned_of_Z. exact H.
Qed.

Lemma at_range b i : 0 <= at_ b i < 256.
Proof. unfold at_. apply byte.unsigned_range. Qed.

(** The value of two bytes, high byte first. *)
Lemma be16_value a b :
  0 <= a < 256 -> 0 <= b < 256 ->
  Z.lor (int64 (Z.shiftl a 8)) b = a * 256 + b.
Proof.
  intros Ha Hb. rewrite Z.shiftl_mul_pow2 by lia. change (2 ^ 8) with 256.
  rewrite int64_small
    by (unfold is_int64; change (2 ^ 63) with 9223372036854775808; lia).
  apply (lor_disjoint _ _ 8); [lia | change (2 ^ 8) with 256; lia |].
  change (2 ^ 8) with 256. apply Z.mod_mul. lia.
Qed.

(** The value of four bytes, high byte first. *)
Lemma be32_value a b c d :
  0 <= a < 256 -> 0 <= b < 256 -> 0 <= c < 256 -> 0 <= d < 256 ->
  Z.lor (Z.lor (Z.lor (uint32 (Z.shiftl a 24)) (uint32 (Z.shiftl b 16)))
               (uint32 (Z.shiftl c 8))) d
  = a * 16777216 + b * 65536 + c * 256 + d.
Proof.
  intros Ha Hb Hc Hd. unfold uint32.
  rewrite !Z.shiftl_mul_pow2 by lia.
  change (2 ^ 8) with 256. change (2 ^ 16) with 65536.
  change (2 ^ 24) with 16777216. change (2 ^ 32) with 4294967296.
  rewrite (Z.mod_small (a * 16777216)), (Z.mod_small (b * 65536)),
    (Z.mod_small (c * 256)) by lia.
  rewrite (lor_disjoint (a * 16777216) (b * 65536) 24);
    [ | lia | change (2 ^ 24) with 16777216; lia
      | change (2 ^ 24) with 16777216; apply Z.mod_mul; lia ].
  rewrite (lor_disjoint _ (c * 256) 16);
    [ | lia | change (2 ^ 16) with 65536; lia
      | change (2 ^ 16) with 65536;
        replace (a * 16777216 + b * 65536) with ((a * 256 + b) * 65536) by lia;
        apply Z.mod_mul; lia ].
  apply (lor_disjoint _ d 8);
    [ lia | change (2 ^ 8) with 256; lia
      | change (2 ^ 8) with 256;
        replace (a * 16777216 + b * 65536 + c * 256)
          with ((a * 65536 + b * 256 + c) * 256) by lia;
        apply Z.mod_mul; lia ].
Qed.

Lemma parseInt_value b start :
  parseInt b start
  = at_ b start * 16777216 + at_ b (start + 1) * 65536
    + at_ b (start + 2) * 256 + at_ b (start + 3).
Proof. unfold parseInt. apply be32_value; apply at_range. Qed.

(** Two bytes keep the low 16 bits of any integer. *)
Lemma be16_trunc x :
  Z.lor (int64 (Z.shiftl (byte.wrap (Z.shiftr x 8)) 8)) (byte.wrap x) = x mod 2 ^ 16.
Proof.
  unfold byte.wrap. rewrite Z.shiftr_div_pow2 by lia.
  change (2 ^ 8) with 256. change (2 ^ 16) with 65536.
  rewrite be16_value by (apply Z.mod_pos_bound; lia).
  Z.div_mod_to_equations. lia.
Qed.

(** Four bytes keep the low 32 bits of any integer. *)
Lemma be32_trunc x :
  Z.lor (Z.lor (Z.lor (uint32 (Z.shiftl (byte.wrap (Z.shiftr x 24)) 24))
                      (uint32 (Z.shiftl (byte.wrap (Z.shiftr x 16)) 16)))
               (uint32 (Z.shiftl (byte.wrap (Z.shiftr x 8)) 8)))
        (byte.wrap x) = x mod 2 ^ 32.
Proof.
  unfold byte.wrap. rewrite !Z.shiftr_div_pow2 by lia.
  change (2 ^ 8) with 256. change (2 ^ 16) with 65536.
  change (2 ^ 24) with 16777216. change (2 ^ 32) with 4294967296.
  rewrite be32_value by (apply Z.mod_pos_bound; lia).
  Z.div_mod_to_equations. lia.
Qed.

(** What [ParseTimestamp] reads back from the bytes of [Marshal]. *)
Lemma ParseTimestamp_Marshal t proto :
  ParseTimestamp (fst (Marshal t proto))
  = (Some {| ID := ID t mod 2 ^ 16;
             Seq := Seq t mod 2 ^ 16;
             OriginTimestamp := OriginTimestamp t mod 2 ^ 32;
             ReceiveTimestamp := ReceiveTimestamp t mod 2 ^ 32;
             TransmitTimestamp := TransmitTimestamp t mod 2 ^ 32 |}, None).
Proof.
  unfold ParseTimestamp, Marshal, unparseInt, parseInt, at_.
  cbn [fst app length marshalledTimestampLen Nat.eqb negb nth Nat.add].
  rewrite !byte.unsigned_of_Z.
  rewrite !be16_trunc, !be32_trunc. reflexivity.
Qed.

(** X1. Truncation: for every Timestamp, whatever the size of its fields,
    [ParseTimestamp] returns from the bytes of [Marshal] the Timestamp whose
    identifier and sequence are reduced modulo 2^16 and whose timestamps
    are reduced modulo 2^32; no error is returned and nothing else is
    lost. *)
Theorem X1_marshal_truncates t proto :
  exists ts,
    ParseTimestamp (fst (Marshal t proto)) = (Some ts, None)
    /\ ID ts = ID t mod 2 ^ 16
    /\ Seq ts = Seq t mod 2 ^ 16
    /\ OriginTimestamp ts = OriginTimestamp t mod 2 ^ 32
    /\ ReceiveTimestamp ts = ReceiveTimestamp t mod 2 ^ 32
    /\ TransmitTimestamp ts = TransmitTimestamp t mod 2 ^ 32.
Proof.
  eexists. split; [apply ParseTimestamp_Marshal|].
  repeat split; reflexivity.
Qed.

(** The two bytes of a 16-bit value built from bytes [a] and [b]. *)
Lemma be16_bytes a b :
  byte.of_Z (Z.shiftr (Z.lor (int64 (Z.shiftl (byte.unsigned a) 8)) (byte.unsigned b)) 8) = a
  /\ byte.of_Z (Z.lor (int64 (Z.shiftl (byte.unsigned a) 8)) (byte.unsigned b)) = b.
Proof.
  pose proof (byte.unsigned_range a) as Ha. pose proof (byte.unsigned_range b) as Hb.
  change (2 ^ 8) with 256 in *.
  rewrite be16_value by assumption.
  split; apply byte_of_Z_unique; unfold byte.wrap;
    rewrite ?Z.shiftr_div_pow2 by lia; change (2 ^ 8) with 256;
    Z.div_mod_to_equations; lia.
Qed.

(** The four bytes of a 32-bit value built from bytes [a], [b], [c], [d]. *)
Lemma be32_bytes a b c d :
  let v := Z.lor (Z.lor (Z.lor (uint32 (Z.shiftl (byte.unsigned a) 24))
                               (uint32 (Z.shiftl (byte.unsigned b) 16)))
                        (uint32 (Z.shiftl (byte.unsigned c) 8)))
                 (byte.unsigned d) in
  unparseInt v = [a; b; c; d].
Proof.
  pose proof (byte.unsigned_range a) as Ha. pose proof (byte.unsigned_range b) as Hb.
  pose proof (byte.unsigned_range c) as Hc. pose proof (byte.unsigned_range d) as Hd.
  change (2 ^ 8) with 256 in *. cbv zeta.
  rewrite be32_value by assumption. unfold unparseInt.
  repeat f_equal; apply byte_of_Z_unique; unfold byte.wrap;
    rewrite ?Z.shiftr_div_pow2 by lia;
    change (2 ^ 8) with 256; change (2 ^ 16) with 65536;
    change (2 ^ 24) with 16777216;
    Z.div_mod_to_equations; lia.
Qed.

(** X2. The reverse round trip: every 16-byte slice is decoded by
    [ParseTimestamp] into a Timestamp that [Marshal] encodes back into the
    very same 16 bytes. *)
Theorem X2_marshal_parse_roundtrip b proto :
  length b = 16%nat ->
  exists ts, ParseTimestamp b = (Some ts, None) /\ Marshal ts proto = (b, None).
Proof.
  intros H.
  do 17 (destruct b as [| ? b]; try discriminate H).
  eexists. split; [reflexivity|].
  unfold Marshal, parseInt, at_.
  cbn [ID Seq OriginTimestamp ReceiveTimestamp TransmitTimestamp nth Nat.add].
  rewrite !be32_bytes.
  destruct (be16_bytes b0 b1) as [-> ->].
  destruct (be16_bytes b2 b3) as [-> ->].
  reflexivity.
Qed.

Lemma X2_marshal_parse_roundtrip_witness :
  exists ts, ParseTimestamp (skipn 4 sample_reply) = (Some ts, None)
             /\ Marshal ts ProtocolICMP = (skipn 4 sample_reply, None).
Proof.
  apply (X2_marshal_parse_roundtrip (skipn 4 sample_reply) ProtocolICMP).
  reflexivity.
Defined.

(** X3. Every Timestamp that [ParseTimestamp] returns has an identifier and
    a sequence number in [0, 2^16-1] and three timestamps in [0, 2^32-1];
    and it returns one exactly when it returns no error. *)
Theorem X3_parse_ranges b ts err :
  ParseTimestamp b = (Some ts, err) ->
  err = None
  /\ length b = 16%nat
  /\ is_uint16 (ID ts) /\ is_uint16 (Seq ts)
  /\ is_uint32 (OriginTimestamp ts) /\ is_uint32 (ReceiveTimestamp ts)
  /\ is_uint32 (TransmitTimestamp ts).
Proof.
  unfold ParseTimestamp, marshalledTimestampLen.
  destruct (Nat.eqb_spec (length b) 16) as [E | E]; cbn [negb]; [| discriminate].
  intros [= <- <-]. cbn [ID Seq OriginTimestamp ReceiveTimestamp TransmitTimestamp].
  split; [reflexivity|]. split; [exact E|].
  assert (K : forall i j, is_uint16 (Z.lor (int64 (Z.shiftl (at_ b i) 8)) (at_ b j))).
  { intros i j. pose proof (at_range b i). pose proof (at_range b j).
    rewrite be16_value by assumption.
    unfold is_uint16. change (2 ^ 16) with 65536. lia. }
  repeat split; try apply K; apply parseInt_range.
Qed.

Lemma X3_parse_ranges_witness :
  is_uint16 (ID {| ID := 258; Seq := 9; OriginTimestamp := 77;
                   ReceiveTimestamp := 1010; TransmitTimestamp := 1020 |}).
Proof.
  apply (X3_parse_ranges (skipn 4 sample_reply)
           {| ID := 258; Seq := 9; OriginTimestamp := 77;
              ReceiveTimestamp := 1010; TransmitTimestamp := 1020 |} None).
  vm_compute. reflexivity.
Defined.

(** X4. [Marshal] is injective on Timestamps within the wire ranges: two
    such Timestamps with the same 16 bytes are the same Timestamp; the
    protocol argument plays no part. *)
Theorem X4_marshal_injective t t' proto proto' :
  is_uint16 (ID t) -> is_uint16 (Seq t) ->
  is_uint32 (OriginTimestamp t) -> is_uint32 (ReceiveTimestamp t) ->
  is_uint32 (TransmitTimestamp t) ->
  is_uint16 (ID t') -> is_uint16 (Seq t') ->
  is_uint32 (OriginTimestamp t') -> is_uint32 (ReceiveTimestamp t') ->
  is_uint32 (TransmitTimestamp t') ->
  fst (Marshal t proto) = fst (Marshal t' proto') ->
  t = t'.
Proof.
  unfold is_uint16, is_uint32.
  intros H1 H2 H3 H4 H5 H1' H2' H3' H4' H5' E.
  pose proof (ParseTimestamp_Marshal t proto) as P.
  rewrite E, ParseTimestamp_Marshal in P.
  destruct t as [i s o r x], t' as [i' s' o' r' x'].
  cbn [ID Seq OriginTimestamp ReceiveTimestamp TransmitTimestamp] in *.
  rewrite !Z.mod_small in P by lia.
  congruence.
Qed.

Lemma X4_marshal_injective_witness :
  sample_Timestamp
  = {| ID := 4464; Seq := 1; OriginTimestamp := 86399999;
       ReceiveTimestamp := 4294967295; TransmitTimestamp := 0 |}.
Proof.
  apply (X4_marshal_injective sample_Timestamp
           {| ID := 4464; Seq := 1; OriginTimestamp := 86399999;
              ReceiveTimestamp := 4294967295; TransmitTimestamp := 0 |}
           ProtocolICMP ProtocolIPv6ICMP);
    unfold is_uint16, is_uint32, sample_Timestamp; cbn; try lia; reflexivity.
Defined.

(** ** [getAddr] *)

(** [find] returns the first element that passes the test. *)
Lemma find_first {A} (f : A -> bool) l x :
  find f l = Some x ->
  exists pre post,
    l = pre ++ x :: post /\ f x = true /\ forall y, In y pre -> f y = false.
Proof.
  induction l as [| a l IH]; cbn; [discriminate|].
  destruct (f a) eqn:Fa.
  - intros [= <-]. exists [], l. repeat split; [exact Fa | intros y []].
  - intros H. destruct (IH H) as (pre & post & -> & Fx & Hp).
    exists (a :: pre), post. repeat split; [exact Fx|].
    intros y [<- | Hy]; [exact Fa | apply Hp, Hy].
Qed.

Lemma find_none_iff {A} (f : A -> bool) l :
  find f l = None <-> forall y, In y l -> f y = false.
Proof.
  split.
  - apply find_none.
  - induction l as [| a l IH]; cbn; [reflexivity|].
    intros H. rewrite (H a (or_introl eq_refl)). apply IH.
    intros y Hy. apply H. right. exact Hy.
Qed.

(** X5. When [getAddr] succeeds, the lookup succeeded and the address it
    returns holds the first address of the lookup result that has an IPv4
    form, unchanged, every earlier one having none; it is a UDP address on a
    UDP socket and an IP address on an IP socket. *)
Theorem X5_getAddr_first_ipv4 w host proto a :
  getAddr w host proto = Ok a ->
  exists pre ip post,
    LookupIP w host = Ok (pre ++ ip :: post)
    /\ (forall x, In x pre -> To4_nonnil x = false)
    /\ To4_nonnil ip = true
    /\ ((LocalAddr w = LocalUDP /\ a = UDPAddr ip)
        \/ (LocalAddr w = LocalIP /\ a = IPAddr ip)).
Proof.
  unfold getAddr, netaddr.
  destruct (LookupIP w host) as [ips | e]; [| discriminate].
  destruct (find To4_nonnil ips) as [ip |] eqn:F; [| discriminate].
  destruct (find_first _ _ _ F) as (pre & post & -> & T & P).
  intros H. exists pre, ip, post.
  split; [reflexivity|]. split; [exact P|]. split; [exact T|].
  destruct (LocalAddr w); [left | right | discriminate];
    injection H as <-; split; reflexivity.
Qed.

Lemma X5_getAddr_first_ipv4_witness :
  exists pre ip post,
    LookupIP (sample_world sample_reply) sample_host = Ok (pre ++ ip :: post)
    /\ (forall x, In x pre -> To4_nonnil x = false)
    /\ To4_nonnil ip = true
    /\ ((LocalAddr (sample_world sample_reply) = LocalUDP
         /\ IPAddr (map byte.of_Z [192; 0; 2; 1]) = UDPAddr ip)
        \/ (LocalAddr (sample_world sample_reply) = LocalIP
            /\ IPAddr (map byte.of_Z [192; 0; 2; 1]) = IPAddr ip)).
Proof.
  apply (X5_getAddr_first_ipv4 (sample_world sample_reply) sample_host ProtocolICMP
           (IPAddr (map byte.of_Z [192; 0; 2; 1]))).
  reflexivity.
Defined.

(** X6. The errors of [getAddr], in the order it meets them: a failed
    lookup is passed on unchanged; a lookup result without any address that
    has an IPv4 form, the empty result included, gives the no-record error
    whatever the kind of socket; and only when such an address exists does a
    socket that is neither UDP nor IP give the address-kind error. *)
Theorem X6_getAddr_errors w host proto :
  (forall e, LookupIP w host = Err e -> getAddr w host proto = Err e)
  /\ (forall ips, LookupIP w host = Ok ips ->
        (forall ip, In ip ips -> To4_nonnil ip = false) ->
        getAddr w host proto = Err ErrNoAddress)
  /\ (forall ips ip, LookupIP w host = Ok ips ->
        In ip ips -> To4_nonnil ip = true -> LocalAddr w = LocalOther ->
        getAddr w host proto = Err ErrAddrKind).
Proof.
  unfold getAddr, netaddr. split; [| split].
  - intros e ->. reflexivity.
  - intros ips -> H. apply find_none_iff in H. rewrite H. reflexivity.
  - intros ips ip -> Hin T L.
    destruct (find To4_nonnil ips) as [x |] eqn:F.
    + rewrite L. reflexivity.
    + rewrite (find_none _ _ F ip Hin) in T. discriminate.
Qed.

Lemma X6_getAddr_errors_witness :
  getAddr (mkWorld (fun _ _ => None) LocalOther (fun _ => Ok []) 1 0
             (fun _ _ => Ok 0) None (Err (ErrLib 7)) 0
             (fun _ b => Ok (BodyRaw b)) (fun _ => 0))
          sample_host ProtocolICMP
  = Err ErrNoAddress.
Proof.
  destruct (X6_getAddr_errors
              (mkWorld (fun _ _ => None) LocalOther (fun _ => Ok []) 1 0
                 (fun _ _ => Ok 0) None (Err (ErrLib 7)) 0
                 (fun _ b => Ok (BodyRaw b)) (fun _ => 0))
              sample_host ProtocolICMP) as (_ & H & _).
  apply (H []); [reflexivity | intros ip []].
Defined.

(** ** [doPing]: what it prints, when it panics, which error it returns *)

(** The three ways the [switch] ends. *)
Lemma doPing_reply_cases impl T1 T4 rm peer :
  (Type_ rm <> ICMPTypeTimestampReply
   /\ doPing_reply impl T1 T4 rm peer
      = (None, Returned (Some (ErrUnexpectedReply rm peer))))
  \/ (Type_ rm = ICMPTypeTimestampReply
      /\ length (fst (Body_Marshal (Body rm) ProtocolICMP)) <> 16%nat
      /\ doPing_reply impl T1 T4 rm peer = (None, Panicked))
  \/ (Type_ rm = ICMPTypeTimestampReply
      /\ length (fst (Body_Marshal (Body rm) ProtocolICMP)) = 16%nat
      /\ exists rep, doPing_reply impl T1 T4 rm peer = (Some rep, Returned None)).
Proof.
  destruct (ICMPType_eqb (Type_ rm) ICMPTypeTimestampReply) eqn:E.
  - apply ICMPType_eqb_eq in E. right.
    destruct (Nat.eq_dec (length (fst (Body_Marshal (Body rm) ProtocolICMP))) 16)
      as [L | L].
    + right. split; [exact E|]. split; [exact L|].
      eexists. apply (doPing_reply_timestamp _ _ _ _ _ _ E (ParseTimestamp_16 _ L)).
    + left. split; [exact E|]. split; [exact L|].
      apply doPing_reply_bad_body; assumption.
  - left.
    assert (N : Type_ rm <> ICMPTypeTimestampReply).
    { intros H. apply ICMPType_eqb_eq in H. congruence. }
    split; [exact N|]. apply doPing_reply_other_type, N.
Qed.

(** A run that does not reach the [switch] returns the error met. *)
Lemma doPing_stops_early w host tt seq out e :
  doPing_exchange w host tt seq = (out, Err e) ->
  doPing w host tt seq = {| sent := out; printed := None; result := Returned (Some e) |}.
Proof. intros H. unfold doPing. rewrite H. reflexivity. Qed.

(** X7. [doPing] prints its report exactly when it returns nil: a run that
    returns an error or panics has printed nothing, and a run that returns
    nil has printed the report. *)
Theorem X7_report_iff_success w host tt seq :
  (exists rep, printed (doPing w host tt seq) = Some rep)
  <-> result (doPing w host tt seq) = Returned None.
Proof.
  destruct (doPing_exchange w host tt seq) as [out [[[[T1 T4] rm] peer] | e]] eqn:X.
  - rewrite (doPing_reaches_switch _ _ _ _ _ _ _ _ _ X). cbn [printed result].
    destruct (doPing_reply_cases (float_impl w) T1 T4 rm peer)
      as [[_ ->] | [(_ & _ & ->) | (_ & _ & rep & ->)]]; cbn [fst snd].
    + split; [intros [rep H]; discriminate | discriminate].
    + split; [intros [rep H]; discriminate | discriminate].
    + split; [reflexivity | intros _; eexists; reflexivity].
  - rewrite (doPing_stops_early _ _ _ _ _ _ X). cbn [printed result].
    split; [intros [rep H]; discriminate | discriminate].
Qed.

Lemma X7_report_iff_success_witness :
  result (doPing (sample_world sample_reply) sample_host main_Ping 0) = Returned None.
Proof.
  apply (X7_report_iff_success (sample_world sample_reply) sample_host main_Ping 0).
  eexists. vm_compute. reflexivity.
Defined.

(** X8. The only panic of [doPing] is the nil dereference: a run panics
    exactly when a message of type Timestamp Reply reaches the [switch]
    with a body that is not 16 bytes long. *)
Theorem X8_panic_iff_bad_timestamp_reply w host tt seq :
  result (doPing w host tt seq) = Panicked
  <-> exists out T1 T4 rm peer,
        doPing_exchange w host tt seq = (out, Ok (T1, T4, rm, peer))
        /\ Type_ rm = ICMPTypeTimestampReply
        /\ length (fst (Body_Marshal (Body rm) ProtocolICMP)) <> 16%nat.
Proof.
  split.
  - destruct (doPing_exchange w host tt seq) as [out [[[[T1 T4] rm] peer] | e]] eqn:X.
    + rewrite (doPing_reaches_switch _ _ _ _ _ _ _ _ _ X). cbn [result].
      destruct (doPing_reply_cases (float_impl w) T1 T4 rm peer)
        as [[_ ->] | [(Ht & Hl & ->) | (_ & _ & rep & ->)]]; cbn [snd];
        try discriminate.
      intros _. exists out, T1, T4, rm, peer. repeat split; assumption.
    + rewrite (doPing_stops_early _ _ _ _ _ _ X). discriminate.
  - intros (out & T1 & T4 & rm & peer & X & Ht & Hl).
    rewrite (doPing_reaches_switch _ _ _ _ _ _ _ _ _ X). cbn [result].
    rewrite (doPing_reply_bad_body _ _ _ _ _ Ht Hl). reflexivity.
Qed.

Lemma X8_panic_iff_bad_timestamp_reply_witness :
  exists out T1 T4 rm peer,
    doPing_exchange (sample_world short_reply) sample_host main_Ping 0
    = (out, Ok (T1, T4, rm, peer))
    /\ Type_ rm = ICMPTypeTimestampReply
    /\ length (fst (Body_Marshal (Body rm) ProtocolICMP)) <> 16%nat.
Proof.
  apply (X8_panic_iff_bad_timestamp_reply (sample_world short_reply) sample_host main_Ping 0).
  vm_compute. reflexivity.
Defined.

(** The request always marshals, into 20 bytes. *)
Lemma request_wire w tt seq :
  exists wb, Message_Marshal (request w tt seq) = (wb, None) /\ length wb = 20%nat.
Proof.
  destruct (Message_Marshal_request w tt seq) as (c2 & c3 & E).
  eexists. split; [exact E | reflexivity].
Qed.

Lemma doPing_sent_fst w host tt seq :
  sent (doPing w host tt seq) = fst (doPing_exchange w host tt seq).
Proof.
  unfold doPing.
  destruct (doPing_exchange w host tt seq) as [out [[[[T1 T4] rm] peer] | e]].
  - destruct (doPing_reply (float_impl w) T1 T4 rm peer). reflexivity.
  - reflexivity.
Qed.

(** X9. A short write ends the run: when [WriteTo] reports a number of
    bytes other than the 20 of the request, [doPing] returns the error that
    names that number and 20, has printed nothing, and neither the deadline
    nor the read is consulted. *)
Theorem X9_short_write w host tt seq dst wb n :
  ListenPacket w (network tt) (address tt) = None ->
  getAddr w host (protocol tt) = Ok dst ->
  Message_Marshal (request w tt seq) = (wb, None) ->
  WriteTo w wb dst = Ok n ->
  n <> 20 ->
  doPing w host tt seq
  = {| sent := Some (wb, dst);
       printed := None;
       result := Returned (Some (ErrShortWrite n 20)) |}.
Proof.
  intros HL HA HM HW Hn.
  destruct (request_wire w tt seq) as (wb' & E & Len20).
  rewrite HM in E. injection E as <-.
  apply doPing_stops_early. unfold doPing_exchange.
  rewrite HL, HA, HM, HW, Len20.
  destruct (Z.eqb_spec n (Z.of_nat 20)) as [-> | N]; [contradiction Hn; reflexivity|].
  reflexivity.
Qed.

Lemma X9_short_write_witness :
  result (doPing (mkWorld (fun _ _ => None) LocalUDP
                    (fun _ => Ok [map byte.of_Z [192; 0; 2; 1]]) 1 0
                    (fun _ _ => Ok 8) None (Err (ErrLib 7)) 0
                    (fun _ b => Ok (BodyRaw b)) (fun _ => 0))
            sample_host main_Ping 0)
  = Returned (Some (ErrShortWrite 8 20)).
Proof.
  erewrite (X9_short_write _ sample_host main_Ping 0
              (UDPAddr (map byte.of_Z [192; 0; 2; 1])) _ 8);
    [reflexivity | reflexivity | reflexivity | vm_compute; reflexivity
     | reflexivity | discriminate].
Defined.

(** X10. A failed read ends the run: when the request went out whole and
    [ReadFrom] returns an error, a timeout for instance, [doPing] returns
    that very error and has printed nothing. *)
Theorem X10_read_error w host tt seq dst wb e :
  ListenPacket w (network tt) (address tt) = None ->
  getAddr w host (protocol tt) = Ok dst ->
  Message_Marshal (request w tt seq) = (wb, None) ->
  WriteTo w wb dst = Ok 20 ->
  SetReadDeadline w = None ->
  ReadFrom w = Err e ->
  doPing w host tt seq
  = {| sent := Some (wb, dst); printed := None; result := Returned (Some e) |}.
Proof.
  intros HL HA HM HW HD HR.
  destruct (request_wire w tt seq) as (wb' & E & Len20).
  rewrite HM in E. injection E as <-.
  apply doPing_stops_early. unfold doPing_exchange.
  rewrite HL, HA, HM, HW, Len20, HD, HR. reflexivity.
Qed.

Lemma X10_read_error_witness :
  result (doPing (mkWorld (fun _ _ => None) LocalUDP
                    (fun _ => Ok [map byte.of_Z [192; 0; 2; 1]]) 1 0
                    (fun _ _ => Ok 20) None (Err (ErrLib 7)) 0
                    (fun _ b => Ok (BodyRaw b)) (fun _ => 0))
            sample_host main_Ping 0)
  = Returned (Some (ErrLib 7)).
Proof.
  erewrite (X10_read_error _ sample_host main_Ping 0
              (UDPAddr (map byte.of_Z [192; 0; 2; 1])) _ (ErrLib 7));
    [reflexivity | reflexivity | reflexivity | vm_compute; reflexivity
     | reflexivity | reflexivity | reflexivity].
Defined.

(** X11. [doPing] hands nothing to [WriteTo] exactly when opening the socket
    or resolving the host fails; in every other run it hands over one
    request, addressed to the result of [getAddr]. *)
Theorem X11_sent_nothing_iff w host tt seq :
  (sent (doPing w host tt seq) = None
   <-> (exists e, ListenPacket w (network tt) (address tt) = Some e)
       \/ (exists e, getAddr w host (protocol tt) = Err e))
  /\ (forall wb dst, sent (doPing w host tt seq) = Some (wb, dst) ->
        ListenPacket w (network tt) (address tt) = None
        /\ getAddr w host (protocol tt) = Ok dst).
Proof.
  rewrite doPing_sent_fst.
  destruct (request_wire w tt seq) as (wb0 & E & _).
  destruct (ListenPacket w (network tt) (address tt)) as [e |] eqn:HL.
  { unfold doPing_exchange. rewrite HL. cbn [fst].
    split; [| intros wb dst H; discriminate].
    split; [intros _; left; eexists; reflexivity | reflexivity]. }
  destruct (getAddr w host (protocol tt)) as [d | e] eqn:HA.
  2: { unfold doPing_exchange. rewrite HL, HA. cbn [fst].
       split; [| intros wb dst H; discriminate].
       split; [intros _; right; eexists; reflexivity | reflexivity]. }
  assert (F : fst (doPing_exchange w host tt seq) = Some (wb0, d)).
  { unfold doPing_exchange. rewrite HL, HA, E.
    destruct (WriteTo w wb0 d) as [n |]; [| reflexivity].
    destruct (negb (n =? Z.of_nat (length wb0))); [reflexivity|].
    destruct (SetReadDeadline w); [reflexivity|].
    destruct (ReadFrom w) as [[dg pr] |]; [| reflexivity].
    destruct (ParseMessage (parse_registered w) (protocol tt) (firstn 1500 dg));
      reflexivity. }
  rewrite F. split.
  - split; [discriminate | intros [[e H] | [e H]]; discriminate].
  - intros wb dst [= <- <-]. split; reflexivity.
Qed.

Lemma X11_sent_nothing_iff_witness :
  sent (doPing (mkWorld (fun _ _ => Some (ErrLib 3)) LocalUDP
                  (fun _ => Ok [map byte.of_Z [192; 0; 2; 1]]) 1 0
                  (fun _ _ => Ok 20) None (Err (ErrLib 7)) 0
                  (fun _ b => Ok (BodyRaw b)) (fun _ => 0))
          sample_host main_Ping 0) = None.
Proof.
  apply (X11_sent_nothing_iff
           (mkWorld (fun _ _ => Some (ErrLib 3)) LocalUDP
              (fun _ => Ok [map byte.of_Z [192; 0; 2; 1]]) 1 0
              (fun _ _ => Ok 20) None (Err (ErrLib 7)) 0
              (fun _ b => Ok (BodyRaw b)) (fun _ => 0))
           sample_host main_Ping 0).
  left. eexists. reflexivity.
Defined.

(** ** The request as the peer decodes it *)

(** [1 << uint(seq)], reduced to the 16 bits that go on the wire. *)
Lemma shl1_low16 seq :
  is_int64 seq ->
  shl1 seq mod 2 ^ 16 = if (0 <=? seq) && (seq <? 16) then 2 ^ seq else 0.
Proof.
  unfold is_int64, shl1. change (2 ^ 63) with 9223372036854775808.
  change (2 ^ 64) with 18446744073709551616. intros H.
  destruct (Z.leb_spec 0 seq) as [P | N]; cbn [andb].
  - rewrite (Z.mod_small seq) by lia.
    destruct (Z.ltb_spec seq 64) as [L | L]; [| destruct (Z.ltb_spec seq 16); [lia | reflexivity]].
    rewrite Z.shiftl_mul_pow2, Z.mul_1_l by lia.
    destruct (Z.ltb_spec seq 16) as [S | S].
    + assert (B : 2 ^ seq < 2 ^ 16) by (apply Z.pow_lt_mono_r; lia).
      assert (B0 : 0 < 2 ^ seq) by (apply Z.pow_pos_nonneg; lia).
      change (2 ^ 16) with 65536 in *.
      rewrite int64_small
        by (unfold is_int64; change (2 ^ 63) with 9223372036854775808; lia).
      apply Z.mod_small. lia.
    + replace seq with (16 + (seq - 16)) by lia.
      rewrite Z.pow_add_r by lia.
      assert (B : 0 < 2 ^ (seq - 16) <= 2 ^ 47).
      { split; [apply Z.pow_pos_nonneg; lia | apply Z.pow_le_mono_r; lia]. }
      change (2 ^ 47) with 140737488355328 in B. change (2 ^ 16) with 65536.
      unfold int64. change (2 ^ 63) with 9223372036854775808.
      change (2 ^ 64) with 18446744073709551616.
      set (k := 2 ^ (seq - 16)) in *.
      Z.div_mod_to_equations. lia.
  - assert (M : seq mod 18446744073709551616 = seq + 18446744073709551616).
    { symmetry. apply (Z.mod_unique _ _ (-1)); lia. }
    rewrite M. destruct (Z.ltb_spec (seq + 18446744073709551616) 64); [lia|].
    reflexivity.
Qed.

(** X12. What the peer finds in the request: [ParseTimestamp], applied to
    the 16 bytes after the header of what [doPing] hands to [WriteTo],
    returns the process id modulo 2^16 as identifier, the sequence number
    [2^seq] when [0 <= seq < 16] and 0 for every other [seq], the send-time
    sample as originate timestamp and 0 for the other two timestamps. *)
Theorem X12_request_decodes w host tt seq wb dst :
  is_int64 seq ->
  sent (doPing w host tt seq) = Some (wb, dst) ->
  ParseTimestamp (skipn 4 wb)
  = (Some {| ID := Getpid w mod 2 ^ 16;
             Seq := if (0 <=? seq) && (seq <? 16) then 2 ^ seq else 0;
             OriginTimestamp := transmitTime (now_UnixNano w);
             ReceiveTimestamp := 0;
             TransmitTimestamp := 0 |}, None).
Proof.
  intros Hs S. apply doPing_sent in S.
  destruct (Message_Marshal_request w tt seq) as (c2 & c3 & E).
  set (mb := fst (Marshal _ _)) in E.
  rewrite E in S. injection S as <-.
  cbn [skipn]. subst mb. rewrite ParseTimestamp_Marshal.
  cbn [ID Seq OriginTimestamp ReceiveTimestamp TransmitTimestamp].
  rewrite (shl1_low16 seq Hs).
  change 65535 with (Z.ones 16). rewrite Z.land_ones by lia.
  rewrite Z.mod_mod by (apply Z.pow_nonzero; lia).
  assert (T : transmitTime (now_UnixNano w) mod 2 ^ 32 = transmitTime (now_UnixNano w)).
  { unfold transmitTime, uint32. apply Z.mod_mod. apply Z.pow_nonzero; lia. }
  rewrite T. reflexivity.
Qed.

Lemma X12_request_decodes_witness :
  ParseTimestamp
    (skipn 4 (map byte.of_Z [13; 0; 221; 166; 17; 112; 0; 1; 0; 0; 3; 232;
                             0; 0; 0; 0; 0; 0; 0; 0]))
  = (Some {| ID := Getpid (sample_world sample_reply) mod 2 ^ 16;
             Seq := if (0 <=? 0) && (0 <? 16) then 2 ^ 0 else 0;
             OriginTimestamp := transmitTime (now_UnixNano (sample_world sample_reply));
             ReceiveTimestamp := 0;
             TransmitTimestamp := 0 |}, None).
Proof.
  apply (X12_request_decodes (sample_world sample_reply) sample_host main_Ping 0 _
           (IPAddr (map byte.of_Z [192; 0; 2; 1]))).
  - unfold is_int64. cbn. lia.
  - vm_compute. reflexivity.
Defined.

(** ** DeltaCalculator: what the two numbers mean *)

(** X13. Sign and meaning of the results.  Let the remote clock lead the
    local one by [theta], the request take [d1] ms and the reply [d2] ms,
    the peer spending any time in between: [T2 = T1 + d1 + theta] and
    [T4 = T3 + d2 - theta].  Then the round-trip time is [d1 + d2], free of
    the peer's processing time, and the delta is [(d1 + d2)/2 - d1 - theta];
    with equal delays it is [- theta], the local clock minus the remote
    one. *)
Theorem X13_offset_and_delay impl T1 T2 T3 T4 d1 d2 theta :
  is_uint32 T1 -> is_uint32 T2 -> is_uint32 T3 -> - 2 ^ 52 <= T4 <= 2 ^ 52 ->
  0 <= d1 -> 0 <= d2 ->
  T2 = T1 + d1 + theta -> T4 = T3 + d2 - theta ->
  compute_rtt impl T1 T2 T3 T4 = d1 + d2
  /\ compute_delta (compute_rtt impl T1 T2 T3 T4) T1 T2
     = Z.quot (d1 + d2) 2 - d1 - theta
  /\ (d1 = d2 -> compute_delta (compute_rtt impl T1 T2 T3 T4) T1 T2 = - theta).
Proof.
  intros H1 H2 H3 H4 Hd1 Hd2 E2 E4.
  destruct (compute_rtt_exact impl T1 T2 T3 T4 H1 H2 H3 H4) as [R D].
  assert (R' : compute_rtt impl T1 T2 T3 T4 = d1 + d2) by (rewrite R; lia).
  rewrite D, R'. split; [reflexivity|]. split; [lia|].
  intros <-. replace (d1 + d1) with (d1 * 2) by lia.
  rewrite Z.quot_mul by lia. lia.
Qed.

Lemma X13_offset_and_delay_witness :
  compute_rtt (fun _ => 0) 1000 6015 6025 1040 = 15 + 15
  /\ compute_delta (compute_rtt (fun _ => 0) 1000 6015 6025 1040) 1000 6015
     = Z.quot (15 + 15) 2 - 15 - 5000
  /\ (15 = 15 ->
      compute_delta (compute_rtt (fun _ => 0) 1000 6015 6025 1040) 1000 6015 = - 5000).
Proof.
  apply (X13_offset_and_delay (fun _ => 0) 1000 6015 6025 1040 15 15 5000);
    unfold is_uint32; cbn; lia.
Defined.

(** ** ClockSampler: the send-time sample *)

(** X15. After the epoch, the send-time sample [transmitTime] is the number
    of whole milliseconds elapsed since the last UTC midnight, a value below
    86,400,000: the conversion to 32 bits loses nothing. *)
Theorem X15_transmitTime_ms_of_day now_ns :
  0 <= now_ns -> is_int64 now_ns ->
  transmitTime now_ns = (now_ns mod day_ns) / ns_per_ms
  /\ 0 <= transmitTime now_ns < 86400000.
Proof.
  intros H0 H.
  destruct (today_midnight now_ns H0 H) as (T & E & B).
  split; [| exact B].
  rewrite E, T. unfold day_ns, ns_per_ms in *.
  change (24 * 3600 * 1000000000) with 86400000000000 in *.
  rewrite Z.quot_div_nonneg by lia.
  pose proof (Z.div_mod now_ns 86400000000000 ltac:(lia)) as D.
  set (q := now_ns / 86400000000000) in *.
  set (r := now_ns mod 86400000000000) in *.
  rewrite D at 1.
  replace (86400000000000 * q + r) with (r + (86400000 * q) * 1000000) by lia.
  rewrite Z.div_add by lia. lia.
Qed.

Lemma X15_transmitTime_ms_of_day_witness :
  transmitTime (now_UnixNano (sample_world sample_reply))
  = (now_UnixNano (sample_world sample_reply) mod day_ns) / ns_per_ms
  /\ 0 <= transmitTime (now_UnixNano (sample_world sample_reply)) < 86400000.
Proof.
  apply (X15_transmitTime_ms_of_day (now_UnixNano (sample_world sample_reply)));
    unfold is_int64; cbn; lia.
Defined.

(** ** The detour through float64 never shows *)

Lemma doPing_exchange_with_float_impl w impl host tt seq :
  doPing_exchange (with_float_impl w impl) host tt seq = doPing_exchange w host tt seq.
Proof. reflexivity. Qed.

(** X14. The result of [doPing] does not depend on the platform's
    out-of-range float64 to int64 conversion: with an [int64] clock reading
    at receive time, the run is the same whatever that conversion yields,
    because the conversion in [rtt] is never out of range. *)
Theorem X14_float_platform_independent w impl host tt seq :
  is_int64 (recv_UnixNano w) ->
  doPing (with_float_impl w impl) host tt seq = doPing w host tt seq.
Proof.
  intros Hr.
  destruct (doPing_exchange w host tt seq) as [out [[[[T1 T4] rm] peer] | e]] eqn:X.
  - rewrite (doPing_reaches_switch w _ _ _ _ _ _ _ _ X).
    rewrite (doPing_reaches_switch (with_float_impl w impl) _ _ _ out T1 T4 rm peer)
      by (rewrite doPing_exchange_with_float_impl; exact X).
    cbn [float_impl with_float_impl].
    destruct (doPing_exchange_inv _ _ _ _ _ _ _ _ _ X)
      as (dst & wb & dg & _ & _ & _ & _ & _ & _ & _ & -> & -> & P).
    destruct (doPing_reply_cases impl (transmitTime (now_UnixNano w))
                (receivedTime (now_UnixNano w) (recv_UnixNano w)) rm peer)
      as [[Ht ->] | [(Ht & Hl & ->) | (Ht & Hl & _)]].
    + rewrite (doPing_reply_other_type _ _ _ _ _ Ht). reflexivity.
    + rewrite (doPing_reply_bad_body _ _ _ _ _ Ht Hl). reflexivity.
    + rewrite !(doPing_reply_timestamp _ _ _ _ _ _ Ht (ParseTimestamp_16 _ Hl)).
      cbn [fst snd ReceiveTimestamp TransmitTimestamp OriginTimestamp].
      destruct (receivedTime_range (now_UnixNano w) (recv_UnixNano w) Hr) as [_ B].
      assert (B' : - 2 ^ 52 <= receivedTime (now_UnixNano w) (recv_UnixNano w) <= 2 ^ 52).
      { change (2 ^ 45) with 35184372088832 in B.
        change (2 ^ 52) with 4503599627370496. lia. }
      assert (U : is_uint32 (transmitTime (now_UnixNano w)))
        by (unfold transmitTime; apply uint32_range).
      set (b := fst (Body_Marshal (Body rm) ProtocolICMP)).
      destruct (compute_rtt_exact impl _ _ _ _ U (parseInt_range b 8)
                  (parseInt_range b 12) B') as [-> _].
      destruct (compute_rtt_exact (float_impl w) _ _ _ _ U (parseInt_range b 8)
                  (parseInt_range b 12) B') as [-> _].
      reflexivity.
  - rewrite (doPing_stops_early w _ _ _ _ _ X).
    apply doPing_stops_early. rewrite doPing_exchange_with_float_impl. exact X.
Qed.

Lemma X14_float_platform_independent_witness :
  doPing (with_float_impl (sample_world sample_reply) (fun _ => 2 ^ 63 - 1))
         sample_host main_Ping 0
  = doPing (sample_world sample_reply) sample_host main_Ping 0.
Proof.
  apply (X14_float_platform_independent (sample_world sample_reply)
           (fun _ => 2 ^ 63 - 1) sample_host main_Ping 0).
  unfold is_int64. cbn. lia.
Defined.

(** ** [main] *)

(** X16. [main] runs [doPing] exactly when there is at least one argument,
    then on the first argument, with the Timestamp Request [Ping] and
    [seq = 0], whether or not the argument count is 1 and raw sockets are
    supported; and it returns normally exactly when [doPing] returned, with
    or without an error: with no argument, or when [doPing] panics, it
    panics. *)
Theorem X16_main_runs_and_ends w args raw_ok :
  (ping (main w args raw_ok) = None <-> args = [])
  /\ (forall host rest, args = host :: rest ->
        ping (main w args raw_ok) = Some (doPing w host main_Ping 0))
  /\ (main_end (main w args raw_ok) = MainReturned
      <-> exists host rest err,
            args = host :: rest
            /\ result (doPing w host main_Ping 0) = Returned err).
Proof.
  destruct args as [| host rest]; cbn [main ping main_end].
  - split; [split; reflexivity|]. split; [intros h r H; discriminate|].
    split; [discriminate | intros (h & r & e & H & _); discriminate].
  - split; [split; discriminate|]. split; [intros h r [= <- <-]; reflexivity|].
    destruct (result (doPing w host main_Ping 0)) as [err |] eqn:R.
    + split; [intros _; exists host, rest, err; split; [reflexivity | exact R]
             | reflexivity].
    + split; [discriminate|].
      intros (h & r & e & [= <- <-] & H). rewrite R in H. discriminate.
Qed.

Lemma X16_main_runs_and_ends_witness :
  main_end (main (sample_world echo_reply) [sample_host; sample_host] false)
  = MainReturned.
Proof.
  apply (X16_main_runs_and_ends (sample_world echo_reply) [sample_host; sample_host] false).
  exists sample_host, [sample_host]. eexists. split; [reflexivity|].
  vm_compute. reflexivity.
Defined.

(** ** Requests and replies built by [Marshal] *)

(** X17. [doPing] does not take its own request for an answer: when the
    datagram it reads is the request it has just sent (as on a raw socket
    that sees the host's own traffic), the message is of type Timestamp
    Request, and [doPing] returns the unexpected-reply error carrying it and
    prints nothing. *)
Theorem X17_own_request_rejected w host seq dst wb peer :
  ListenPacket w (network main_Ping) (address main_Ping) = None ->
  getAddr w host (protocol main_Ping) = Ok dst ->
  Message_Marshal (request w main_Ping seq) = (wb, None) ->
  WriteTo w wb dst = Ok 20 ->
  SetReadDeadline w = None ->
  ReadFrom w = Ok (wb, peer) ->
  exists rm,
    Type_ rm = ICMPTypeTimestamp
    /\ Body rm = BodyRaw (skipn 4 wb)
    /\ doPing w host main_Ping seq
       = {| sent := Some (wb, dst);
            printed := None;
            result := Returned (Some (ErrUnexpectedReply rm peer)) |}.
Proof.
  intros HL HA HM HW HD HR.
  destruct (Message_Marshal_request w main_Ping seq) as (c2 & c3 & E).
  set (mb := fst (Marshal _ _)) in E.
  assert (Lmb : length mb = 16%nat) by reflexivity.
  rewrite HM in E. injection E as ->. clearbody mb.
  do 17 (destruct mb as [| ? mb]; try discriminate Lmb).
  set (wb := _ :: _) in *.
  assert (P : ParseMessage (parse_registered w) (protocol main_Ping) (firstn 1500 wb)
              = Ok {| Type_ := ICMPTypeTimestamp; Code := 0;
                      Checksum := Z.lor (Z.shiftl (byte.unsigned c2) 8) (byte.unsigned c3);
                      Body := BodyRaw (skipn 4 wb) |}).
  { subst wb. unfold ParseMessage, at_.
    cbn [firstn length Nat.ltb Nat.leb nth skipn protocol main_Ping mtype
         ICMPType_number ICMPTypeTimestamp].
    rewrite !byte.unsigned_of_Z. reflexivity. }
  exists {| Type_ := ICMPTypeTimestamp; Code := 0;
            Checksum := Z.lor (Z.shiftl (byte.unsigned c2) 8) (byte.unsigned c3);
            Body := BodyRaw (skipn 4 wb) |}.
  split; [reflexivity|]. split; [reflexivity|].
  assert (X : doPing_exchange w host main_Ping seq
              = (Some (wb, dst),
                 Ok (transmitTime (now_UnixNano w),
                     receivedTime (now_UnixNano w) (recv_UnixNano w),
                     {| Type_ := ICMPTypeTimestamp; Code := 0;
                        Checksum := Z.lor (Z.shiftl (byte.unsigned c2) 8)
                                          (byte.unsigned c3);
                        Body := BodyRaw (skipn 4 wb) |}, peer))).
  { unfold doPing_exchange. rewrite HL, HA, HM, HW.
    assert (L20 : Z.of_nat (length wb) = 20) by reflexivity.
    rewrite L20. cbn [Z.eqb Pos.eqb negb]. rewrite HD, HR, P. reflexivity. }
  rewrite (doPing_reaches_switch _ _ _ _ _ _ _ _ _ X).
  rewrite doPing_reply_other_type by (cbn; discriminate).
  reflexivity.
Qed.

Lemma X17_own_request_rejected_witness :
  exists rm,
    Type_ rm = ICMPTypeTimestamp
    /\ Body rm = BodyRaw (skipn 4 (map byte.of_Z [13; 0; 221; 166; 17; 112; 0; 1;
                                                  0; 0; 3; 232; 0; 0; 0; 0; 0; 0; 0; 0]))
    /\ doPing (sample_world (map byte.of_Z [13; 0; 221; 166; 17; 112; 0; 1;
                                            0; 0; 3; 232; 0; 0; 0; 0; 0; 0; 0; 0]))
              sample_host main_Ping 0
       = {| sent := Some (map byte.of_Z [13; 0; 221; 166; 17; 112; 0; 1;
                                         0; 0; 3; 232; 0; 0; 0; 0; 0; 0; 0; 0],
                          IPAddr (map byte.of_Z [192; 0; 2; 1]));
            printed := None;
            result := Returned (Some (ErrUnexpectedReply rm
                                        (IPAddr (map byte.of_Z [198; 51; 100; 7])))) |}.
Proof.
  apply (X17_own_request_rejected
           (sample_world (map byte.of_Z [13; 0; 221; 166; 17; 112; 0; 1;
                                         0; 0; 3; 232; 0; 0; 0; 0; 0; 0; 0; 0]))
           sample_host 0 (IPAddr (map byte.of_Z [192; 0; 2; 1])) _
           (IPAddr (map byte.of_Z [198; 51; 100; 7])));
    reflexivity.
Defined.

(** X18. A reply built by [Marshal] is read back whole: when the message
    at the [switch] is a Timestamp Reply whose body is the encoding of a
    Timestamp with 32-bit timestamps, [doPing] returns nil and the report
    shows that Timestamp's originate, receive and transmit values and the
    round-trip time and delta computed from them; the identifier and the
    sequence number play no part. *)
Theorem X18_reply_from_marshal impl T1 T4 code cksum ts proto peer :
  is_uint32 (OriginTimestamp ts) -> is_uint32 (ReceiveTimestamp ts) ->
  is_uint32 (TransmitTimestamp ts) ->
  doPing_reply impl T1 T4
    {| Type_ := ICMPTypeTimestampReply; Code := code; Checksum := cksum;
       Body := BodyRaw (fst (Marshal ts proto)) |} peer
  = (Some {| Originate := OriginTimestamp ts;
             Receive := ReceiveTimestamp ts;
             Transmit := TransmitTimestamp ts;
             tsrtt := compute_rtt impl T1 (ReceiveTimestamp ts) (TransmitTimestamp ts) T4;
             delta := compute_delta
                        (compute_rtt impl T1 (ReceiveTimestamp ts) (TransmitTimestamp ts) T4)
                        T1 (ReceiveTimestamp ts) |},
     Returned None).
Proof.
  unfold is_uint32. intros HO HR HT.
  erewrite doPing_reply_timestamp;
    [| reflexivity | cbn [Body Body_Marshal fst]; apply ParseTimestamp_Marshal].
  cbn [OriginTimestamp ReceiveTimestamp TransmitTimestamp].
  rewrite !Z.mod_small by lia. reflexivity.
Qed.

Lemma X18_reply_from_marshal_witness :
  doPing_reply (fun _ => 0) 1000 1040
    {| Type_ := ICMPTypeTimestampReply; Code := 0; Checksum := 0;
       Body := BodyRaw (fst (Marshal (mkTimestamp 70000 (- 1) 77 1010 1020) ProtocolICMP)) |}
    (UDPAddr [])
  = (Some {| Originate := 77; Receive := 1010; Transmit := 1020;
             tsrtt := compute_rtt (fun _ => 0) 1000 1010 1020 1040;
             delta := compute_delta (compute_rtt (fun _ => 0) 1000 1010 1020 1040)
                        1000 1010 |},
     Returned None).
Proof.
  apply (X18_reply_from_marshal (fun _ => 0) 1000 1040 0 0
           (mkTimestamp 70000 (- 1) 77 1010 1020) ProtocolICMP (UDPAddr []));
    unfold is_uint32; cbn; lia.
Defined.
